(** * slack-github-bridge: the HTTP relay of [src/server.ts]

    A shallow embedding of the Express application of [server.ts]: the
    authentication middleware, the three function handlers and the routes,
    over the fragment of JavaScript the file uses (JSON values, truthiness,
    [||], property reads, string conversion), with the outbound [fetch]
    calls and the clock reads as explicit effects. *)

From Stdlib Require Import String Ascii List Bool Arith Lia.
From Stdlib Require Import DecimalString.
Import ListNotations.
Local Open Scope string_scope.
Local Open Scope list_scope.
Local Set Warnings "-register-all".

(** ** The JavaScript fragment *)

Module JS.

(** What a [throw] carries, as far as [error.message] can tell.  The text
    of an engine-raised [TypeError] is the engine's, so it stays symbolic;
    errors raised by the platform ([fetch], [response.json()],
    [Buffer.from]) carry their message. *)
Inductive Exn : Type :=
| NullishRead (property : string)   (* reading a property of null/undefined *)
| NotPrimitive                      (* object that cannot be converted to a string *)
| NotCallable (expression : string) (* calling something that is not a function *)
| External (message : string).

Inductive Result (A : Type) : Type :=
| Ok (a : A)
| Throw (e : Exn).
Arguments Ok {A} a.
Arguments Throw {A} e.

Definition rbind {A B} (r : Result A) (f : A -> Result B) : Result B :=
  match r with
  | Ok a => f a
  | Throw e => Throw e
  end.

(** JSON-born values.  A number is kept as its canonical decimal rendering
    ([Number.prototype.toString]): the program only tests numbers for
    truthiness, prints them and passes them on.  An object is the list of
    its own properties. *)
Inductive Value : Type :=
| JUndefined
| JNull
| JBool (b : bool)
| JNum (repr : string)
| JStr (s : string)
| JArr (items : list Value)
| JObj (props : list (string * Value)).

Definition dec (n : nat) : string := NilEmpty.string_of_uint (Nat.to_uint n).

Definition ofNat (n : nat) : Value := JNum (dec n).

(** [!!v] *)
Definition truthy (v : Value) : bool :=
  match v with
  | JUndefined | JNull => false
  | JBool b => b
  | JNum r => negb (String.eqb r "0" || String.eqb r "NaN")
  | JStr s => negb (String.eqb s "")
  | JArr _ | JObj _ => true
  end.

(** [a || b] *)
Definition or (a b : Value) : Value := if truthy a then a else b.

Definition nullish (v : Value) : bool :=
  match v with
  | JUndefined | JNull => true
  | _ => false
  end.

Fixpoint lookup (name : string) (props : list (string * Value)) : Value :=
  match props with
  | [] => JUndefined
  | (k, v) :: rest => if String.eqb k name then v else lookup name rest
  end.

Definition hasOwn (name : string) (props : list (string * Value)) : bool :=
  existsb (fun kv => String.eqb (fst kv) name) props.

(** The length of a JavaScript string, in UTF-16 code units, the string
    being held as its UTF-8 bytes: one unit for every sequence of one, two
    or three bytes, two for a sequence of four. *)
Fixpoint units (s : string) : nat :=
  match s with
  | EmptyString => 0
  | String c rest =>
      let byte := nat_of_ascii c in
      (if byte <? 128 then 1
       else if byte <? 192 then 0
       else if byte <? 240 then 1
       else 2)%nat
      + units rest
  end.

(** [v.name], for the property names [server.ts] reads (none of them is
    inherited from a prototype, [length] apart). *)
Definition get (v : Value) (name : string) : Result Value :=
  match v with
  | JUndefined | JNull => Throw (NullishRead name)
  | JObj props => Ok (lookup name props)
  | JArr items => Ok (if String.eqb name "length" then ofNat (List.length items) else JUndefined)
  | JStr s => Ok (if String.eqb name "length" then ofNat (units s) else JUndefined)
  | JBool _ | JNum _ => Ok JUndefined
  end.

(** [v?.name] *)
Definition getOpt (v : Value) (name : string) : Value :=
  match get v name with
  | Ok x => x
  | Throw _ => JUndefined
  end.

(** [const { name = dflt } = ...]: the default replaces [undefined] only. *)
Definition orDefault (v dflt : Value) : Value :=
  match v with
  | JUndefined => dflt
  | _ => v
  end.

(** [Array.prototype.join] on strings. *)
Fixpoint join (sep : string) (parts : list string) : string :=
  match parts with
  | [] => ""
  | [s] => s
  | s :: rest => s ++ sep ++ join sep rest
  end.

(** [String(v)], the conversion of template literals and of
    [URLSearchParams.append].  An array prints its elements separated by
    commas, null and undefined elements as nothing; a plain object prints
    as [[object Object]] unless an own [toString] property (never callable
    in JSON data) hides [Object.prototype.toString]. *)
Fixpoint toStr (v : Value) : Result string :=
  match v with
  | JUndefined => Ok "undefined"
  | JNull => Ok "null"
  | JBool true => Ok "true"
  | JBool false => Ok "false"
  | JNum r => Ok r
  | JStr s => Ok s
  | JArr items =>
      rbind
        ((fix each (l : list Value) : Result (list string) :=
            match l with
            | [] => Ok []
            | x :: rest =>
                rbind (match x with
                       | JUndefined | JNull => Ok ""
                       | _ => toStr x
                       end)
                      (fun s => rbind (each rest) (fun ss => Ok (s :: ss)))
            end) items)
        (fun parts => Ok (join "," parts))
  | JObj props =>
      if hasOwn "toString" props then Throw NotPrimitive else Ok "[object Object]"
  end.

End JS.
Import JS.

(** ** The platform: outbound calls, the clock and the host's own functions *)

Module Platform.

(** The two ways [server.ts] writes the address of an outbound call: a
    template literal, sent as written, and a [URL] object whose
    [searchParams] were appended one by one ([url.toString()] encodes
    them). *)
Inductive Url : Type :=
| Literal (text : string)
| WithSearch (base : string) (params : list (string * string)).

(** One call of [fetch]: the request body is the object handed to
    [JSON.stringify]. *)
Record OutReq : Type := mkOutReq {
  rq_method : string;
  rq_url : Url;
  rq_headers : list (string * string);
  rq_body : option Value
}.

(** What the handlers read of a [Response]: its status and the outcome of
    [response.json()]. *)
Record FetchResponse : Type := mkFetchResponse {
  status : nat;
  json : Result Value
}.

(** [response.ok]: the status is in the range 200-299. *)
Definition ok (r : FetchResponse) : bool :=
  ((200 <=? status r) && (status r <=? 299))%nat.

Inductive FetchOutcome : Type :=
| Rejected (message : string)
| Responded (r : FetchResponse).

(** A handler as a tree of its effects. *)
Inductive Prog (A : Type) : Type :=
| Ret (a : A)
| Fetch (rq : OutReq) (k : FetchOutcome -> Prog A)
| Now (k : string -> Prog A).   (* new Date().toISOString() *)
Arguments Ret {A} a.
Arguments Fetch {A} rq k.
Arguments Now {A} k.

Fixpoint pbind {A B} (p : Prog A) (f : A -> Prog B) : Prog B :=
  match p with
  | Ret a => f a
  | Fetch rq k => Fetch rq (fun out => pbind (k out) f)
  | Now k => Now (fun iso => pbind (k iso) f)
  end.

(** Effects with exceptions: the body of an [async] handler. *)
Definition M (A : Type) : Type := Prog (Result A).

Definition ret {A} (a : A) : M A := Ret (Ok a).

Definition lift {A} (r : Result A) : M A := Ret r.

Definition mbind {A B} (m : M A) (f : A -> M B) : M B :=
  pbind m (fun r => match r with
                    | Ok a => f a
                    | Throw e => Ret (Throw e)
                    end).

(** [await fetch(...)]: a rejected promise throws. *)
Definition responded (out : FetchOutcome) : Result FetchResponse :=
  match out with
  | Rejected message => Throw (External message)
  | Responded r => Ok r
  end.

Definition fetch (rq : OutReq) : M FetchResponse :=
  Fetch rq (fun out => Ret (responded out)).

Definition now : M string := Now (fun iso => Ret (Ok iso)).

(** What the handlers take from their host: Node, its locale and time
    zone, the JavaScript engine's error texts and Express's path
    matching. *)
Record Host : Type := mkHost {
  (* new Date(parseFloat(s) * 1000).toLocaleString() *)
  localeStamp : string -> string;
  (* Buffer.from(s).toString('base64') for a string s *)
  base64 : string -> string;
  (* Buffer.from(v).toString('base64') for a value that is not a string *)
  bufferFrom : Value -> Result string;
  (* the message of an engine-raised TypeError *)
  engineText : Exn -> string;
  (* routeMatch verb pattern method path: does Express hand a request with
     this method and path to the route registered by app.verb(pattern) *)
  routeMatch : string -> string -> string -> string -> bool
}.

(** [error.message] *)
Definition messageOf (host : Host) (e : Exn) : string :=
  match e with
  | External message => message
  | _ => engineText host e
  end.

(** The outside world of one request: the outcome of the n-th outbound
    call and the n-th reading of the clock. *)
Record World : Type := mkWorld {
  outcome : nat -> FetchOutcome;
  clock : nat -> string
}.

(** What a run has done so far: the outbound calls, in order, and the
    number of clock readings. *)
Record Log : Type := mkLog {
  calls : list OutReq;
  reads : nat
}.

Fixpoint exec {A} (w : World) (p : Prog A) (log : Log) : A * Log :=
  match p with
  | Ret a => (a, log)
  | Fetch rq k =>
      exec w (k (outcome w (List.length (calls log))))
           (mkLog (calls log ++ [rq]) (reads log))
  | Now k => exec w (k (clock w (reads log))) (mkLog (calls log) (S (reads log)))
  end.

(** Running a handler: its result and the outbound calls it made. *)
Definition run {A} (w : World) (p : Prog A) : A * list OutReq :=
  let (a, log) := exec w p (mkLog [] 0) in (a, calls log).

End Platform.
Import Platform.

Declare Scope js_scope.
Delimit Scope js_scope with js.
Notation "x <- m ;; k" := (mbind m (fun x => k))
  (at level 61, m at next level, right associativity) : js_scope.
Notation "x <~ r ;; k" := (rbind r (fun x => k))
  (at level 61, r at next level, right associativity) : js_scope.

(** ** The server of [server.ts] *)

Module Server.

Local Open Scope js_scope.

Definition nl : string := String (ascii_of_nat 10) EmptyString.

(** [process.env]: each variable is a string or undefined. *)
Record Env : Type := mkEnv {
  MCP_API_KEY : option string;
  SLACK_BOT_TOKEN : option string;
  GITHUB_TOKEN : option string;
  GITHUB_OWNER : option string;
  GITHUB_REPO : option string
}.

(** A request as it reaches the middleware of line 9, after
    [express.json()] and [cors()]: [req.method], [req.path],
    [req.headers['x-api-key']] and [req.body]. *)
Record Request : Type := mkRequest {
  method : string;
  path : string;
  x_api_key : option string;
  body : Value
}.

(** [res.status(code).json(payload)]; the payload is the object handed to
    [res.json]. *)
Record Response : Type := mkResponse {
  code : nat;
  payload : Value
}.

Definition error (text : Value) : Value := JObj [("error", text)].

(** [a !== b] on two values that are a string or undefined. *)
Definition strictNeq (a b : option string) : bool :=
  match a, b with
  | None, None => false
  | Some x, Some y => negb (String.eqb x y)
  | _, _ => true
  end.

(** [!v] fails exactly when the variable holds a non-empty string. *)
Definition configured (v : option string) : option string :=
  match v with
  | Some s => if String.eqb s "" then None else Some s
  | None => None
  end.

Definition unauthorized : Response := mkResponse 401 (error (JStr "Unauthorized")).

(** Lines 9-17.  [next] is the rest of the chain; [None] stands for a
    request no route of this file answers. *)
Definition auth (env : Env) (req : Request) (next : Prog (option Response))
  : Prog (option Response) :=
  if String.eqb (path req) "/health" then next
  else if strictNeq (x_api_key req) (MCP_API_KEY env)
       then Ret (Some unauthorized)
       else next.

(** Lines 25-59. *)
Definition catalog : Value :=
  JObj [("functions", JArr [
    JObj [("name", JStr "get_slack_messages");
          ("description", JStr "Get messages from a Slack channel");
          ("parameters", JObj [
             ("channel", JStr "Channel ID or name");
             ("limit", JStr "Number of messages to retrieve (default: 100)");
             ("older_than", JStr "Optional: timestamp to get messages older than this")])];
    JObj [("name", JStr "save_to_github");
          ("description", JStr "Save content to a GitHub repository");
          ("parameters", JObj [
             ("path", JStr "File path in repository");
             ("content", JStr "File content");
             ("message", JStr "Commit message");
             ("branch", JStr "Branch name (default: main)")])];
    JObj [("name", JStr "slack_to_github_context");
          ("description", JStr "Pull Slack messages and save as context file in GitHub");
          ("parameters", JObj [
             ("slack_channel", JStr "Slack channel ID or name");
             ("github_path", JStr "Path to save in GitHub repository");
             ("message_limit", JStr "Number of messages to retrieve (default: 100)");
             ("commit_message", JStr "GitHub commit message")])]])].

(** The [try { ... } catch (error) { res.status(500).json(...) }] around
    each handler body. *)
Definition recover (host : Host) (r : Result Response) : Response :=
  match r with
  | Ok response => response
  | Throw e => mkResponse 500 (error (JStr (messageOf host e)))
  end.

Definition catching (host : Host) (m : M Response) : Prog Response :=
  pbind m (fun r => Ret (recover host r)).

(** Lines 75-87 and 206-215: the call to [conversations.history]. *)
Definition history_request (slackToken : string) (channel limit older_than : Value)
  : Result OutReq :=
  c <~ toStr channel ;;
  l <~ toStr limit ;;
  oldest <~ (if truthy older_than
             then o <~ toStr older_than ;; Ok [("oldest", o)]
             else Ok []) ;;
  Ok (mkOutReq "GET"
        (WithSearch "https://slack.com/api/conversations.history"
                    ([("channel", c); ("limit", l)] ++ oldest))
        [("Authorization", ("Bearer " ++ slackToken)%string);
         ("Content-Type", "application/json")]
        None).

(** Lines 89-100: the answer to the provider's page. *)
Definition history_reply (response : FetchResponse) : Result Response :=
  data <~ json response ;;
  data_ok <~ get data "ok" ;;
  if negb (truthy data_ok)
  then
    data_error <~ get data "error" ;;
    Ok (mkResponse 400 (error (or data_error (JStr "Slack API error"))))
  else
    messages <~ get data "messages" ;;
    has_more <~ get data "has_more" ;;
    Ok (mkResponse 200 (JObj [
          ("success", JBool true);
          ("messages", or messages (JArr []));
          ("count", or (getOpt messages "length") (ofNat 0));
          ("has_more", or has_more (JBool false))])).

(** Lines 62-104. *)
Definition get_slack_messages (host : Host) (env : Env) (req : Request)
  : Prog Response :=
  catching host (
    channel <- lift (get (body req) "channel") ;;
    limit <- lift (get (body req) "limit") ;;
    older_than <- lift (get (body req) "older_than") ;;
    if negb (truthy channel)
    then ret (mkResponse 400 (error (JStr "channel parameter is required")))
    else
      match configured (SLACK_BOT_TOKEN env) with
      | None => ret (mkResponse 500 (error (JStr "SLACK_BOT_TOKEN not configured")))
      | Some slackToken =>
          rq <- lift (history_request slackToken channel
                        (orDefault limit (JNum "100")) older_than) ;;
          response <- fetch rq ;;
          lift (history_reply response)
      end).

(** The address of a file in the store's contents API. *)
Definition contents (githubOwner githubRepo file : string) : string :=
  ("https://api.github.com/repos/" ++ githubOwner ++ "/" ++ githubRepo
     ++ "/contents/" ++ file)%string.

(** Lines 136-139 and 263-266: the value [sha] holds after the lookup. *)
Definition existing_sha (out : FetchOutcome) : Value :=
  match out with
  | Rejected _ => JUndefined
  | Responded checkResponse =>
      if ok checkResponse
      then match json checkResponse with
           | Ok existing => getOpt existing "sha"
           | Throw _ => JUndefined
           end
      else JUndefined
  end.

Definition lookup_request (githubToken url : string) : OutReq :=
  mkOutReq "GET" (Literal url)
    [("Authorization", ("token " ++ githubToken)%string);
     ("Accept", "application/vnd.github.v3+json")]
    None.

(** Lines 124-142 and 251-269: the inner [try]/[catch], which swallows
    every failure, that of writing the address included. *)
Definition file_sha (githubToken : string) (url : Result string) : M Value :=
  match url with
  | Throw _ => ret JUndefined
  | Ok u => Fetch (lookup_request githubToken u) (fun out => ret (existing_sha out))
  end.

(** [if (sha) { body.sha = sha; }] *)
Definition with_sha (props : list (string * Value)) (sha : Value) : Value :=
  JObj (props ++ (if truthy sha then [("sha", sha)] else [])).

Definition put_request (githubToken url : string) (payload : Value) : OutReq :=
  mkOutReq "PUT" (Literal url)
    [("Authorization", ("token " ++ githubToken)%string);
     ("Content-Type", "application/json");
     ("Accept", "application/vnd.github.v3+json")]
    (Some payload).

(** [Buffer.from(content).toString('base64')] *)
Definition encode (host : Host) (content : Value) : Result string :=
  match content with
  | JStr s => Ok (base64 host s)
  | _ => bufferFrom host content
  end.

(** Lines 168-178: the answer to the write. *)
Definition save_reply (response : FetchResponse) : Result Response :=
  data <~ json response ;;
  if negb (ok response)
  then
    data_message <~ get data "message" ;;
    Ok (mkResponse (status response)
          (error (or data_message (JStr "GitHub API error"))))
  else
    commit <~ get data "commit" ;;
    written <~ get data "content" ;;
    Ok (mkResponse 200 (JObj [
          ("success", JBool true);
          ("commit_sha", getOpt commit "sha");
          ("file_url", getOpt written "html_url")])).

(** Lines 107-182. *)
Definition save_to_github (host : Host) (env : Env) (req : Request)
  : Prog Response :=
  catching host (
    file <- lift (get (body req) "path") ;;
    content <- lift (get (body req) "content") ;;
    message <- lift (get (body req) "message") ;;
    branch0 <- lift (get (body req) "branch") ;;
    let branch := orDefault branch0 (JStr "main") in
    if negb (truthy file) || negb (truthy content)
    then ret (mkResponse 400 (error (JStr "path and content parameters are required")))
    else
      match configured (GITHUB_TOKEN env), configured (GITHUB_OWNER env),
            configured (GITHUB_REPO env) with
      | Some githubToken, Some githubOwner, Some githubRepo =>
          sha <- file_sha githubToken
                   (p <~ toStr file ;;
                    b <~ toStr branch ;;
                    Ok (contents githubOwner githubRepo p ++ "?ref=" ++ b)%string) ;;
          content64 <- lift (encode host content) ;;
          let payload :=
            with_sha [("message", or message (JStr "Update from Slack context"));
                      ("content", JStr content64);
                      ("branch", branch)] sha in
          p <- lift (toStr file) ;;
          response <- fetch (put_request githubToken
                               (contents githubOwner githubRepo p) payload) ;;
          lift (save_reply response)
      | _, _, _ =>
          ret (mkResponse 500 (error (JStr "GitHub credentials not configured")))
      end).

(** [Array.prototype.map] with a callback that may throw. *)
Fixpoint mapR {A B} (f : A -> Result B) (l : list A) : Result (list B) :=
  match l with
  | [] => Ok []
  | x :: rest => y <~ f x ;; ys <~ mapR f rest ;; Ok (y :: ys)
  end.

(** Lines 232-238, the callback of [map]: one message of the document.
    [parseFloat] converts its argument to a string first. *)
Definition render_message (host : Host) (msg : Value) : Result string :=
  ts <~ get msg "ts" ;;
  seconds <~ toStr ts ;;
  let timestamp := localeStamp host seconds in
  msg_user <~ get msg "user" ;;
  msg_username <~ get msg "username" ;;
  let user := or (or msg_user msg_username) (JStr "Unknown") in
  msg_text <~ get msg "text" ;;
  let text := or msg_text (JStr "") in
  u <~ toStr user ;;
  t <~ toStr text ;;
  Ok ("### " ++ u ++ " - " ++ timestamp ++ nl ++ nl ++ t ++ nl ++ nl ++ "---")%string.

(** Lines 226-239: the template literal, [generated] being the clock
    reading of line 227.  [messages.reverse()] exists on arrays only. *)
Definition markdownContent (host : Host) (generated : string) (messages : Value)
  : Result string :=
  len <~ get messages "length" ;;
  total <~ toStr len ;;
  rendered <~ match messages with
              | JArr items => mapR (render_message host) (rev items)
              | _ => Throw (NotCallable "messages.reverse")
              end ;;
  Ok ("# Slack Context from Channel" ++ nl
      ++ "Generated: " ++ generated ++ nl
      ++ "Total messages: " ++ total ++ nl
      ++ nl
      ++ "---" ++ nl
      ++ nl
      ++ join (nl ++ nl) rendered ++ nl)%string.

(** Lines 294-308: the answer to the write of the document. *)
Definition context_reply (messages : Value) (githubResponse : FetchResponse)
  : Result Response :=
  githubData <~ json githubResponse ;;
  if negb (ok githubResponse)
  then
    github_message <~ get githubData "message" ;;
    Ok (mkResponse (status githubResponse) (JObj [
          ("error", or github_message (JStr "GitHub API error"));
          ("slack_messages_retrieved", getOpt messages "length")]))
  else
    written <~ get githubData "content" ;;
    commit <~ get githubData "commit" ;;
    Ok (mkResponse 200 (JObj [
          ("success", JBool true);
          ("messages_saved", getOpt messages "length");
          ("github_url", getOpt written "html_url");
          ("commit_sha", getOpt commit "sha")])).

(** Line 272: the commit message, the clock being read a second time when
    the request gives none. *)
Definition commit_text (w : World) (commit_message : Value) : Value :=
  if truthy commit_message
  then commit_message
  else JStr ("Update Slack context - " ++ clock w 1).

(** Lines 185-312. *)
Definition slack_to_github_context (host : Host) (env : Env) (req : Request)
  : Prog Response :=
  catching host (
    slack_channel <- lift (get (body req) "slack_channel") ;;
    github_path <- lift (get (body req) "github_path") ;;
    message_limit <- lift (get (body req) "message_limit") ;;
    commit_message <- lift (get (body req) "commit_message") ;;
    if negb (truthy slack_channel) || negb (truthy github_path)
    then ret (mkResponse 400
                (error (JStr "slack_channel and github_path parameters are required")))
    else
      match configured (SLACK_BOT_TOKEN env) with
      | None => ret (mkResponse 500 (error (JStr "SLACK_BOT_TOKEN not configured")))
      | Some slackToken =>
          rq <- lift (history_request slackToken slack_channel
                        (orDefault message_limit (JNum "100")) JUndefined) ;;
          slackResponse <- fetch rq ;;
          slackData <- lift (json slackResponse) ;;
          slack_ok <- lift (get slackData "ok") ;;
          if negb (truthy slack_ok)
          then
            slack_error <- lift (get slackData "error") ;;
            ret (mkResponse 400 (error (or slack_error (JStr "Slack API error"))))
          else
            slack_messages <- lift (get slackData "messages") ;;
            let messages := or slack_messages (JArr []) in
            generated <- now ;;
            document <- lift (markdownContent host generated messages) ;;
            match configured (GITHUB_TOKEN env), configured (GITHUB_OWNER env),
                  configured (GITHUB_REPO env) with
            | Some githubToken, Some githubOwner, Some githubRepo =>
                sha <- file_sha githubToken
                         (p <~ toStr github_path ;;
                          Ok (contents githubOwner githubRepo p)) ;;
                message <- (if truthy commit_message
                            then ret commit_message
                            else stamp <- now ;;
                                 ret (JStr ("Update Slack context - " ++ stamp))) ;;
                let payload :=
                  with_sha [("message", message);
                            ("content", JStr (base64 host document));
                            ("branch", JStr "main")] sha in
                p <- lift (toStr github_path) ;;
                githubResponse <- fetch (put_request githubToken
                                           (contents githubOwner githubRepo p) payload) ;;
                lift (context_reply messages githubResponse)
            | _, _, _ =>
                ret (mkResponse 500 (error (JStr "GitHub credentials not configured")))
            end
      end).

(** Lines 20-22. *)
Definition health : Prog Response :=
  Now (fun iso => Ret (mkResponse 200 (JObj [("status", JStr "healthy");
                                             ("timestamp", JStr iso)]))).

Definition answered (p : Prog Response) : Prog (option Response) :=
  pbind p (fun response => Ret (Some response)).

(** The routes, in the order they are registered. *)
Definition routes (host : Host) (env : Env) (req : Request) : Prog (option Response) :=
  let at_route verb pattern := routeMatch host verb pattern (method req) (path req) in
  if at_route "get" "/health" then answered health
  else if at_route "get" "/functions" then Ret (Some (mkResponse 200 catalog))
  else if at_route "post" "/functions/get_slack_messages"
       then answered (get_slack_messages host env req)
  else if at_route "post" "/functions/save_to_github"
       then answered (save_to_github host env req)
  else if at_route "post" "/functions/slack_to_github_context"
       then answered (slack_to_github_context host env req)
  else Ret None.

(** The chain from line 9 on: the middleware, then the routes. *)
Definition app (host : Host) (env : Env) (req : Request) : Prog (option Response) :=
  auth env req (routes host env req).

(** What [express.json()] (line 5) makes of the body of a request: an error,
    which it hands to Express, or the value it leaves in [req.body] (when
    there is nothing to parse, undefined or an empty object, by the version
    of Express). *)
Inductive Parsed : Type :=
| Unparsable
| ReqBody (v : Value).

(** A request as it comes in. *)
Record Inbound : Type := mkInbound {
  in_method : string;
  in_path : string;
  in_key : option string;
  in_parsed : Parsed
}.

(** Who answers a request: Express, for a body the parser rejects (status
    400); [cors()], for a preflight (status 204); or the chain from line 9
    on. *)
Inductive Served : Type :=
| ParserError
| Preflight
| Passed (answer : option Response).

(** Lines 4-17 and the routes: [express.json()], then [cors()], which ends
    every OPTIONS request itself, then the chain from line 9 on. *)
Definition server (host : Host) (env : Env) (inbound : Inbound) : Prog Served :=
  match in_parsed inbound with
  | Unparsable => Ret ParserError
  | ReqBody v =>
      if String.eqb (in_method inbound) "OPTIONS"
      then Ret Preflight
      else pbind (app host env (mkRequest (in_method inbound) (in_path inbound)
                                          (in_key inbound) v))
                 (fun answer => Ret (Passed answer))
  end.

End Server.
Import Server.

(** ** The document, in the words of the specification *)

Module Document.

(** A message as the provider lists it; each field may be absent. *)
Record SlackMessage : Type := mkSlackMessage {
  ts : option string;
  user : option string;
  username : option string;
  text : option string
}.

Definition field (name : string) (v : option string) : list (string * Value) :=
  match v with
  | Some s => [(name, JStr s)]
  | None => []
  end.

(** The JSON object of a message. *)
Definition to_json (m : SlackMessage) : Value :=
  JObj (field "ts" (ts m) ++ field "user" (user m)
        ++ field "username" (username m) ++ field "text" (text m)).

Definition present (v : option string) : option string :=
  match v with
  | Some EmptyString => None
  | _ => v
  end.

(** The author: the user, else the user name, else "Unknown". *)
Definition author (m : SlackMessage) : string :=
  match present (user m), present (username m) with
  | Some u, _ => u
  | None, Some u => u
  | None, None => "Unknown"
  end.

Definition message_text (m : SlackMessage) : string :=
  match text m with
  | Some t => t
  | None => ""
  end.

(** The human-readable local timestamp of a message. *)
Definition local_time (host : Host) (m : SlackMessage) : string :=
  localeStamp host (match ts m with
                    | Some t => t
                    | None => "undefined"
                    end).

Definition lines (l : list string) : string := join nl l.

Definition rule : string := "---".

(** A level-3 heading, the text, a trailing rule. *)
Definition entry (host : Host) (m : SlackMessage) : string :=
  lines [("### " ++ author m ++ " - " ++ local_time host m)%string;
         ""; message_text m; ""; rule].

(** Title, generation time, message count, rule, then the entries,
    separated by blank lines. *)
Definition layout (generated : string) (total : nat) (entries : list string) : string :=
  lines ["# Slack Context from Channel";
         ("Generated: " ++ generated)%string;
         ("Total messages: " ++ dec total)%string;
         ""; rule; "";
         join (nl ++ nl) entries; ""].

(** [doc] presents the messages [ordered], top to bottom. *)
Definition presents (host : Host) (generated doc : string) (ordered : list Value)
  : Prop :=
  exists entries,
    Forall2 (fun msg e => render_message host msg = Ok e) ordered entries
    /\ doc = layout generated (List.length ordered) entries.

(** A message that has a timestamp and nothing else. *)
Definition stamped (t : string) : Value := JObj [("ts", JStr t)].

End Document.
Import Document.

(** ** The stages of the two writing handlers *)

Module Stage.

(** The lookup succeeded and yielded the version token [token]. *)
Definition found (out : FetchOutcome) (token : Value) : Prop :=
  exists checkResponse existing,
    out = Responded checkResponse
    /\ ok checkResponse = true
    /\ json checkResponse = Ok existing
    /\ get existing "sha" = Ok token
    /\ truthy token = true.

(** A run of save_to_github that gets as far as the store: the request
    names a path and a content, the store is configured, and the path, the
    branch and the content can be written out. *)
Definition save_reaches_store (host : Host) (env : Env) (req : Request)
  (githubToken githubOwner githubRepo p b content64 : string) : Prop :=
  truthy (getOpt (body req) "path") = true
  /\ truthy (getOpt (body req) "content") = true
  /\ configured (GITHUB_TOKEN env) = Some githubToken
  /\ configured (GITHUB_OWNER env) = Some githubOwner
  /\ configured (GITHUB_REPO env) = Some githubRepo
  /\ toStr (getOpt (body req) "path") = Ok p
  /\ toStr (orDefault (getOpt (body req) "branch") (JStr "main")) = Ok b
  /\ encode host (getOpt (body req) "content") = Ok content64.

(** A run of slack_to_github_context that gets as far as the store: the
    request names a channel and a path, the provider is configured and
    answers the call [rq] with ok and the sequence [messages], which
    renders as [document], and the store is configured. *)
Definition context_reaches_store (host : Host) (env : Env) (req : Request) (w : World)
  (rq : OutReq) (messages : list Value)
  (document githubToken githubOwner githubRepo p : string) : Prop :=
  truthy (getOpt (body req) "slack_channel") = true
  /\ truthy (getOpt (body req) "github_path") = true
  /\ (exists slackToken,
        configured (SLACK_BOT_TOKEN env) = Some slackToken
        /\ history_request slackToken (getOpt (body req) "slack_channel")
             (orDefault (getOpt (body req) "message_limit") (JNum "100")) JUndefined
           = Ok rq)
  /\ (exists slackResponse slackData flag,
        outcome w 0 = Responded slackResponse
        /\ json slackResponse = Ok slackData
        /\ get slackData "ok" = Ok flag
        /\ truthy flag = true
        /\ or (getOpt slackData "messages") (JArr []) = JArr messages)
  /\ markdownContent host (clock w 0) (JArr messages) = Ok document
  /\ configured (GITHUB_TOKEN env) = Some githubToken
  /\ configured (GITHUB_OWNER env) = Some githubOwner
  /\ configured (GITHUB_REPO env) = Some githubRepo
  /\ toStr (getOpt (body req) "github_path") = Ok p.

End Stage.
Import Stage.

(** ** What every run of a handler does *)

Module Discipline.

(** [Always Q p]: whatever the outside world answers, [p] ends in a result
    that satisfies [Q]. *)
Inductive Always {A : Type} (Q : A -> Prop) : Prog A -> Prop :=
| Always_ret (a : A) : Q a -> Always Q (Ret a)
| Always_fetch (rq : OutReq) (k : FetchOutcome -> Prog A) :
    (forall out, Always Q (k out)) -> Always Q (Fetch rq k)
| Always_now (k : string -> Prog A) :
    (forall iso, Always Q (k iso)) -> Always Q (Now k).

(** [Follows kinds p]: whatever the outside world answers, the outbound
    calls of [p] are of the listed kinds, in that order, each kind used at
    most once. *)
Inductive Follows {A : Type} : list (OutReq -> bool) -> Prog A -> Prop :=
| Follows_ret (kinds : list (OutReq -> bool)) (a : A) : Follows kinds (Ret a)
| Follows_fetch (kind : OutReq -> bool) (kinds : list (OutReq -> bool))
                (rq : OutReq) (k : FetchOutcome -> Prog A) :
    kind rq = true -> (forall out, Follows kinds (k out)) ->
    Follows (kind :: kinds) (Fetch rq k)
| Follows_skip (kind : OutReq -> bool) (kinds : list (OutReq -> bool)) (p : Prog A) :
    Follows kinds p -> Follows (kind :: kinds) p
| Follows_now (kinds : list (OutReq -> bool)) (k : string -> Prog A) :
    (forall iso, Follows kinds (k iso)) -> Follows kinds (Now k).

(** The calls [made] are of the listed kinds, in order, each kind used at
    most once. *)
Inductive Matches : list (OutReq -> bool) -> list OutReq -> Prop :=
| Matches_done (kinds : list (OutReq -> bool)) : Matches kinds []
| Matches_call (kind : OutReq -> bool) (kinds : list (OutReq -> bool))
               (rq : OutReq) (made : list OutReq) :
    kind rq = true -> Matches kinds made -> Matches (kind :: kinds) (rq :: made)
| Matches_skip (kind : OutReq -> bool) (kinds : list (OutReq -> bool))
               (made : list OutReq) :
    Matches kinds made -> Matches (kind :: kinds) made.

(** [Leads kinds p]: as [Follows], and no kind is passed over: a call of
    the second kind is made only after one of the first, and so on. *)
Inductive Leads {A : Type} : list (OutReq -> bool) -> Prog A -> Prop :=
| Leads_ret (kinds : list (OutReq -> bool)) (a : A) : Leads kinds (Ret a)
| Leads_fetch (kind : OutReq -> bool) (kinds : list (OutReq -> bool))
              (rq : OutReq) (k : FetchOutcome -> Prog A) :
    kind rq = true -> (forall out, Leads kinds (k out)) ->
    Leads (kind :: kinds) (Fetch rq k)
| Leads_now (kinds : list (OutReq -> bool)) (k : string -> Prog A) :
    (forall iso, Leads kinds (k iso)) -> Leads kinds (Now k).

(** The calls [made] are of the first kinds listed, one call of each. *)
Inductive Starts : list (OutReq -> bool) -> list OutReq -> Prop :=
| Starts_done (kinds : list (OutReq -> bool)) : Starts kinds []
| Starts_call (kind : OutReq -> bool) (kinds : list (OutReq -> bool))
              (rq : OutReq) (made : list OutReq) :
    kind rq = true -> Starts kinds made -> Starts (kind :: kinds) (rq :: made).

Fixpoint starts_with (start s : string) : bool :=
  match start with
  | EmptyString => true
  | String a start' =>
      match s with
      | EmptyString => false
      | String b s' => Ascii.eqb a b && starts_with start' s'
      end
  end.

(** A read of the provider's channel history. *)
Definition slack_get (rq : OutReq) : bool :=
  String.eqb (rq_method rq) "GET"
  && match rq_url rq, rq_body rq with
     | WithSearch base _, None =>
         String.eqb base "https://slack.com/api/conversations.history"
     | _, _ => false
     end.

(** A read of the store's contents API. *)
Definition store_get (rq : OutReq) : bool :=
  String.eqb (rq_method rq) "GET"
  && match rq_url rq, rq_body rq with
     | Literal text, None => starts_with "https://api.github.com/repos/" text
     | _, _ => false
     end.

(** A write to the store's contents API. *)
Definition store_put (rq : OutReq) : bool :=
  String.eqb (rq_method rq) "PUT"
  && match rq_url rq, rq_body rq with
     | Literal text, Some (JObj _) => starts_with "https://api.github.com/repos/" text
     | _, _ => false
     end.

(** An answer is either a success, 200 with success:true and no error, or a
    failure, another status with an error and no success. *)
Definition settled (r : Response) : Prop :=
  exists props,
    payload r = JObj props
    /\ ((code r = 200 /\ lookup "success" props = JBool true
         /\ hasOwn "error" props = false)
        \/ (code r <> 200 /\ hasOwn "error" props = true
            /\ hasOwn "success" props = false)).

(** The statuses get_slack_messages answers with. *)
Definition own_status (r : Response) : Prop :=
  code r = 200 \/ code r = 400 \/ code r = 500.

End Discipline.
Import Discipline.

(** ** The routes, as a table *)

Module Routing.

Inductive Route : Type :=
| Health
| Functions
| GetSlackMessages
| SaveToGithub
| SlackToGithubContext.

(** The routes in the order [server.ts] registers them. *)
Definition registered : list Route :=
  [Health; Functions; GetSlackMessages; SaveToGithub; SlackToGithubContext].

Definition verb (route : Route) : string :=
  match route with
  | Health | Functions => "get"
  | _ => "post"
  end.

Definition pattern (route : Route) : string :=
  match route with
  | Health => "/health"
  | Functions => "/functions"
  | GetSlackMessages => "/functions/get_slack_messages"
  | SaveToGithub => "/functions/save_to_github"
  | SlackToGithubContext => "/functions/slack_to_github_context"
  end.

(** The handler registered for a route. *)
Definition handler (host : Host) (env : Env) (req : Request) (route : Route)
  : Prog Response :=
  match route with
  | Health => health
  | Functions => Ret (mkResponse 200 catalog)
  | GetSlackMessages => get_slack_messages host env req
  | SaveToGithub => save_to_github host env req
  | SlackToGithubContext => slack_to_github_context host env req
  end.

(** The route a request is handed to: the first registered one that
    matches. *)
Definition dispatched (host : Host) (req : Request) : option Route :=
  find (fun route => routeMatch host (verb route) (pattern route) (method req) (path req))
       registered.

End Routing.
Import Routing.

(** ** The document, line by line *)

Module Markdown.

Definition LF : ascii := "010"%char.

(** The text of a list of lines, each ended by a line feed. *)
Fixpoint unlines (ls : list string) : string :=
  match ls with
  | [] => EmptyString
  | l :: rest => (l ++ String LF (unlines rest))%string
  end.

(** [holds props name value]: the object with properties [props] has the
    string [value] as its property [name], or, for [None], has no such
    property. *)
Inductive holds (props : list (string * Value)) (name : string) : option string -> Prop :=
| holds_none : (forall v, ~ In (name, v) props) -> holds props name None
| holds_some (before after : list (string * Value)) (value : string) :
    props = before ++ (name, JStr value) :: after ->
    (forall v, ~ In (name, v) before) ->
    holds props name (Some value).

(** The object [props] is the message [m]: its ts, user, username and text
    are those of [m]; it may have any other property, in any order. *)
Definition shows (props : list (string * Value)) (m : SlackMessage) : Prop :=
  holds props "ts" (ts m)
  /\ holds props "user" (user m)
  /\ holds props "username" (username m)
  /\ holds props "text" (text m).

(** Title line, generation line, count line, blank, rule, blank. *)
Definition head_lines (generated : string) (total : nat) : list string :=
  ["# Slack Context from Channel";
   ("Generated: " ++ generated)%string;
   ("Total messages: " ++ dec total)%string;
   ""; "---"; ""].

(** A level-3 heading, a blank, the text, a blank, a rule. *)
Definition entry_lines (host : Host) (m : SlackMessage) : list string :=
  [("### " ++ author m ++ " - " ++ local_time host m)%string;
   ""; message_text m; ""; "---"].

(** The entries one after the other, a blank line between two of them; a
    single blank line when there is none. *)
Fixpoint body_lines (entries : list (list string)) : list string :=
  match entries with
  | [] => [""]
  | [e] => e
  | e :: rest => e ++ "" :: body_lines rest
  end.

End Markdown.
Import Markdown.

(** ** The address of a call and the failure of a write *)

Module Address.

(** The query of an address: what follows its first question mark. *)
Fixpoint query_of (s : string) : option string :=
  match s with
  | EmptyString => None
  | String c rest => if Ascii.eqb c "?"%char then Some rest else query_of rest
  end.

Fixpoint occurs (needle hay : string) : bool :=
  starts_with needle hay
  || match hay with
     | EmptyString => false
     | String _ rest => occurs needle rest
     end.

(** The address has a ref parameter in its query. *)
Definition carries_ref (u : Url) : bool :=
  match u with
  | Literal text =>
      match query_of text with
      | None => false
      | Some query => starts_with "ref=" query || occurs "&ref=" query
      end
  | WithSearch _ params => existsb (fun kv => String.eqb (fst kv) "ref") params
  end.

(** The write failed: the call was rejected, or the store answered with a
    status outside 200-299. *)
Definition write_failed (out : FetchOutcome) : bool :=
  match out with
  | Rejected _ => true
  | Responded r => negb (ok r)
  end.

End Address.
Import Address.

(** ** Getting as far as the provider *)

Module Reach.

(** A run of get_slack_messages that gets as far as the provider: the
    request names a channel, the provider is configured, and the channel,
    the limit and the cursor can be written out, which gives the call
    [rq]. *)
Definition messages_reaches_provider (env : Env) (req : Request) (rq : OutReq) : Prop :=
  truthy (getOpt (body req) "channel") = true
  /\ exists slackToken,
       configured (SLACK_BOT_TOKEN env) = Some slackToken
       /\ history_request slackToken (getOpt (body req) "channel")
            (orDefault (getOpt (body req) "limit") (JNum "100"))
            (getOpt (body req) "older_than") = Ok rq.

(** The same for slack_to_github_context, which also needs a path. *)
Definition context_reaches_provider (env : Env) (req : Request) (rq : OutReq) : Prop :=
  truthy (getOpt (body req) "slack_channel") = true
  /\ truthy (getOpt (body req) "github_path") = true
  /\ exists slackToken,
       configured (SLACK_BOT_TOKEN env) = Some slackToken
       /\ history_request slackToken (getOpt (body req) "slack_channel")
            (orDefault (getOpt (body req) "message_limit") (JNum "100")) JUndefined
          = Ok rq.

(** The provider answers the first call with a page that is ok and whose
    messages, the empty array standing for absent ones, are [messages]. *)
Definition page_received (w : World) (messages : Value) : Prop :=
  exists slackResponse slackData flag,
    outcome w 0 = Responded slackResponse
    /\ json slackResponse = Ok slackData
    /\ get slackData "ok" = Ok flag
    /\ truthy flag = true
    /\ or (getOpt slackData "messages") (JArr []) = messages.

End Reach.
Import Reach.

(** ** A concrete host, environment and world *)

Module Sample.

(** A host whose functions are simple stand-ins, enough to tell their
    results apart; its router matches paths exactly. *)
Definition host : Host :=
  mkHost (fun seconds => ("at " ++ seconds)%string)
         (fun s => ("base64:" ++ s)%string)
         (fun _ => Throw (External "The first argument must be of type string"))
         (fun _ => "TypeError")
         (fun verb pattern m p =>
            String.eqb pattern p
            && (String.eqb verb "get" && String.eqb m "GET"
                || String.eqb verb "post" && String.eqb m "POST")).

Definition env : Env :=
  mkEnv (Some "s3cret") (Some "xoxb-1") (Some "ghp-1") (Some "octo") (Some "notes").

Definition env_without_secret : Env :=
  mkEnv None (Some "xoxb-1") (Some "ghp-1") (Some "octo") (Some "notes").

Definition env_without_tokens : Env :=
  mkEnv (Some "s3cret") None None (Some "octo") (Some "notes").

Definition post (route : string) (key : option string) (payload : Value) : Request :=
  mkRequest "POST" route key payload.

Definition message (t who what : string) : Value :=
  JObj [("ts", JStr t); ("user", JStr who); ("text", JStr what)].

Definition three_messages : list Value :=
  [message "3" "U3" "third"; message "2" "U2" "second"; message "1" "U1" "first"].

Definition history : FetchOutcome :=
  Responded (mkFetchResponse 200
    (Ok (JObj [("ok", JBool true); ("messages", JArr three_messages)]))).

Definition slack_failure (props : list (string * Value)) : FetchOutcome :=
  Responded (mkFetchResponse 200 (Ok (JObj (("ok", JBool false) :: props)))).

Definition not_found : FetchOutcome :=
  Responded (mkFetchResponse 404 (Ok (JObj [("message", JStr "Not Found")]))).

Definition found : FetchOutcome :=
  Responded (mkFetchResponse 200 (Ok (JObj [("sha", JStr "abc123")]))).

Definition conflict : FetchOutcome :=
  Responded (mkFetchResponse 409
    (Ok (JObj [("message", JStr "is at abc123 but expected def456")]))).

Definition created : FetchOutcome :=
  Responded (mkFetchResponse 201
    (Ok (JObj [("content", JObj [("html_url", JStr "https://github.com/octo/notes/blob/main/ctx.md")]);
               ("commit", JObj [("sha", JStr "c0ffee")])]))).

(** A world given by the outcomes of its first calls; later calls are
    rejected. *)
Definition world (outcomes : list FetchOutcome) : World :=
  mkWorld (fun n => nth n outcomes (Rejected "fetch failed"))
          (fun n => ("2026-01-0" ++ dec (S n) ++ "T00:00:00.000Z")%string).

Definition context_request : Request :=
  post "/functions/slack_to_github_context" (Some "s3cret")
       (JObj [("slack_channel", JStr "C1"); ("github_path", JStr "ctx.md")]).

Definition save_request : Request :=
  post "/functions/save_to_github" (Some "s3cret")
       (JObj [("path", JStr "ctx.md"); ("content", JStr "hello"); ("branch", JStr "dev")]).

Definition messages_request (channel : Value) : Request :=
  post "/functions/get_slack_messages" (Some "s3cret") (JObj [("channel", channel)]).

(** The provider call of [context_request] and the document its three
    messages render to at the first clock reading. *)
Definition history_call : OutReq :=
  mkOutReq "GET"
    (WithSearch "https://slack.com/api/conversations.history"
                [("channel", "C1"); ("limit", "100")])
    [("Authorization", "Bearer xoxb-1"); ("Content-Type", "application/json")]
    None.

Definition document : string :=
  Eval vm_compute in
    match markdownContent host "2026-01-01T00:00:00.000Z" (JArr three_messages) with
    | Ok d => d
    | Throw _ => ""
    end.

End Sample.

(** ** Proof automation *)

(** Unfolding the monad of the handlers. *)
Ltac handler := unfold run, catching, mbind, lift, ret, fetch, now; simpl.

(** The fields a handler takes from the body of its request. *)
Ltac fields req :=
  repeat match goal with
         | |- context [getOpt (body req) ?name] =>
             let v := fresh "arg" in
             generalize (getOpt (body req) name); intros v
         end.

(** Following a handler through every branch. *)
Ltac branch :=
  match goal with
  | |- context [match ?x with _ => _ end] =>
      lazymatch x with
      | context [match _ with _ => _ end] => fail
      | _ => destruct x eqn:?
      end
  end.

Ltac explore :=
  repeat (cbn [pbind];
          first [ apply Follows_ret
                | apply Follows_now; intro
                | apply Follows_fetch; [reflexivity | intro]
                | apply Follows_skip; apply Follows_fetch; [reflexivity | intro]
                | branch ]).

Ltac explore_strictly :=
  repeat (cbn [pbind];
          first [ apply Leads_ret
                | apply Leads_now; intro
                | apply Leads_fetch; [reflexivity | intro]
                | branch ]).

Ltac explore_answers leaf :=
  repeat (cbn [pbind];
          first [ apply Always_now; intro
                | apply Always_fetch; intro
                | branch
                | apply Always_ret; leaf ]).

(** A failed response of the store does not have status 200. *)
Ltac failed_status :=
  let Hstatus := fresh "Hstatus" in
  intros Hstatus;
  match goal with
  | H : negb (ok ?r) = true |- _ =>
      unfold ok in H; rewrite Hstatus in H; discriminate H
  end.

Ltac settle :=
  unfold settled, error; simpl; eexists; split; [reflexivity|];
  first [ left; repeat split; reflexivity
        | right; repeat split; first [ reflexivity | lia | failed_status ] ].

(** ** General facts about the fragment and about runs *)

Lemma get_present (v : Value) (name : string) :
  nullish v = false -> get v name = Ok (getOpt v name).
Proof.
  unfold getOpt. destruct v; simpl; intros H; try discriminate; reflexivity.
Qed.

Lemma truthy_getOpt_present (v : Value) (name : string) :
  truthy (getOpt v name) = true -> nullish v = false.
Proof.
  unfold getOpt. destruct v; simpl; intros H; try discriminate; reflexivity.
Qed.

Lemma get_read (v field : Value) (name : string) :
  get v name = Ok field -> nullish v = false /\ getOpt v name = field.
Proof.
  unfold getOpt. intros H. rewrite H. split; [| reflexivity].
  destruct v; try discriminate H; reflexivity.
Qed.

Lemma truthy_getOpt_get (v token : Value) (name : string) :
  getOpt v name = token -> truthy token = true -> get v name = Ok token.
Proof.
  unfold getOpt. destruct (get v name) as [x|e]; intros <- H.
  - reflexivity.
  - discriminate H.
Qed.

Lemma strictNeq_true (a b : option string) : a <> b -> strictNeq a b = true.
Proof.
  destruct a as [x|], b as [y|]; simpl; intros H; try reflexivity.
  - destruct (String.eqb_spec x y) as [->|]; [now elim H | reflexivity].
  - now elim H.
Qed.


Lemma exec_pbind {A B} (w : World) (p : Prog A) (f : A -> Prog B) (log : Log) :
  exec w (pbind p f) log = exec w (f (fst (exec w p log))) (snd (exec w p log)).
Proof.
  revert log. induction p as [a | rq k IH | k IH]; intros log; simpl.
  - reflexivity.
  - apply IH.
  - apply IH.
Qed.

Lemma mapR_Forall2 {A B} (f : A -> Result B) (l : list A) (out : list B) :
  Forall2 (fun x y => f x = Ok y) l out -> mapR f l = Ok out.
Proof.
  induction 1 as [| x y l out Hxy _ IH]; simpl.
  - reflexivity.
  - rewrite Hxy. simpl. rewrite IH. reflexivity.
Qed.

Lemma mapR_Ok {A B} (f : A -> Result B) (l : list A) (out : list B) :
  mapR f l = Ok out -> Forall2 (fun x y => f x = Ok y) l out.
Proof.
  revert out. induction l as [|x l IH]; simpl; intros out H.
  - injection H as <-. constructor.
  - destruct (f x) as [y|e] eqn:Hx; simpl in H; [| discriminate H].
    destruct (mapR f l) as [ys|e] eqn:Hl; simpl in H; [| discriminate H].
    injection H as <-. constructor; [exact Hx | now apply IH].
Qed.

Lemma Forall2_rev {A B} (R : A -> B -> Prop) (l : list A) (out : list B) :
  Forall2 R l out -> Forall2 R (rev l) (rev out).
Proof.
  induction 1 as [| x y l out Hxy _ IH]; simpl.
  - constructor.
  - apply Forall2_app; [exact IH | repeat constructor; exact Hxy].
Qed.

(** ** The authentication middleware *)

Lemma auth_rejects (env : Env) (req : Request) (next : Prog (option Response)) :
  path req <> "/health" -> x_api_key req <> MCP_API_KEY env ->
  auth env req next = Ret (Some unauthorized).
Proof.
  intros Hpath Hkey. unfold auth.
  destruct (String.eqb_spec (path req) "/health") as [E|_]; [now elim Hpath|].
  rewrite (strictNeq_true _ _ Hkey). reflexivity.
Qed.


Lemma run_pbind_ret {A B} (w : World) (p : Prog A) (f : A -> B) :
  run w (pbind p (fun a => Ret (f a))) = (f (fst (run w p)), snd (run w p)).
Proof.
  unfold run. rewrite exec_pbind.
  destruct (exec w p (mkLog [] 0)) as [a log]. reflexivity.
Qed.

Lemma server_passes (host : Host) (env : Env) (inbound : Inbound) (v : Value) (w : World) :
  in_parsed inbound = ReqBody v ->
  in_method inbound <> "OPTIONS" ->
  run w (server host env inbound)
  = (Passed (fst (run w (app host env (mkRequest (in_method inbound) (in_path inbound)
                                                 (in_key inbound) v)))),
     snd (run w (app host env (mkRequest (in_method inbound) (in_path inbound)
                                         (in_key inbound) v)))).
Proof.
  intros Hparsed Hmethod. unfold server. rewrite Hparsed.
  destruct (String.eqb_spec (in_method inbound) "OPTIONS") as [E|_]; [now elim Hmethod|].
  apply run_pbind_ret.
Qed.

Lemma routes_dispatched (host : Host) (env : Env) (req : Request) :
  routes host env req
  = match dispatched host req with
    | Some route => answered (handler host env req route)
    | None => Ret None
    end.
Proof.
  unfold routes, dispatched, registered. simpl.
  repeat match goal with
         | |- context [routeMatch host ?v ?p (method req) (path req)] =>
             destruct (routeMatch host v p (method req) (path req))
         end; reflexivity.
Qed.

(** C2, as stated, fails: a preflight is answered by cors() (line 6) before
    the middleware of line 9 sees it, whatever its key. *)
Lemma preflight_is_not_rejected :
  ~ (forall (host : Host) (env : Env) (inbound : Inbound) (w : World),
        in_path inbound <> "/health" ->
        (in_key inbound = None \/ in_key inbound <> MCP_API_KEY env) ->
        run w (server host env inbound) = (Passed (Some unauthorized), [])).
Proof.
  intros claim.
  specialize (claim Sample.host Sample.env
                    (mkInbound "OPTIONS" "/functions/get_slack_messages" None
                               (ReqBody JUndefined))
                    (Sample.world [])).
  assert (H : run (Sample.world [])
                  (server Sample.host Sample.env
                          (mkInbound "OPTIONS" "/functions/get_slack_messages" None
                                     (ReqBody JUndefined)))
              = (Preflight, [])) by reflexivity.
  rewrite claim in H.
  - discriminate H.
  - simpl. discriminate.
  - left. reflexivity.
Qed.

(** C2, amended: a request that express.json() and cors() pass on (its body
    is not rejected by the parser, its method is not OPTIONS), whose path is
    not /health and whose x-api-key header is absent or not equal to the
    configured secret, MCP_API_KEY being set, is answered 401 with
    {error:"Unauthorized"}; the rest of the chain is dropped, so no handler
    runs and no outbound call is made. *)
Theorem gate_rejects_wrong_key
  (host : Host) (env : Env) (inbound : Inbound) (w : World)
  (v : Value) (secret : string) :
  in_parsed inbound = ReqBody v ->
  in_method inbound <> "OPTIONS" ->
  in_path inbound <> "/health" ->
  MCP_API_KEY env = Some secret ->
  in_key inbound = None \/ in_key inbound <> Some secret ->
  run w (server host env inbound)
  = (Passed (Some (mkResponse 401 (JObj [("error", JStr "Unauthorized")]))), [])
  /\ (forall next,
         auth env (mkRequest (in_method inbound) (in_path inbound) (in_key inbound) v) next
         = Ret (Some (mkResponse 401 (JObj [("error", JStr "Unauthorized")])))).
Proof.
  intros Hparsed Hmethod Hpath Hsecret Hkey.
  assert (Hgate : forall next,
             auth env (mkRequest (in_method inbound) (in_path inbound)
                                 (in_key inbound) v) next
             = Ret (Some unauthorized)).
  { intros next. apply auth_rejects; simpl.
    - exact Hpath.
    - rewrite Hsecret. destruct Hkey as [-> | Hkey]; [discriminate | exact Hkey]. }
  split.
  - rewrite (server_passes host env inbound v w Hparsed Hmethod).
    unfold app. rewrite Hgate. reflexivity.
  - exact Hgate.
Qed.

Lemma gate_rejects_wrong_key_witness :
  run (Sample.world [Sample.history])
      (server Sample.host Sample.env
         (mkInbound "POST" "/functions/get_slack_messages" (Some "guess")
                    (ReqBody (JObj [("channel", JStr "C1")]))))
  = (Passed (Some (mkResponse 401 (JObj [("error", JStr "Unauthorized")]))), []).
Proof.
  refine (proj1 (gate_rejects_wrong_key Sample.host Sample.env
                   (mkInbound "POST" "/functions/get_slack_messages" (Some "guess")
                              (ReqBody (JObj [("channel", JStr "C1")])))
                   (Sample.world [Sample.history])
                   (JObj [("channel", JStr "C1")]) "s3cret"
                   eq_refl _ _ eq_refl _)).
  - simpl. discriminate.
  - simpl. discriminate.
  - right. simpl. discriminate.
Defined.

(** C9, as stated, fails: with MCP_API_KEY unset, a preflight without a key
    is answered by cors() and reaches no handler. *)
Lemma keyless_preflight_reaches_no_handler :
  ~ (forall (host : Host) (env : Env) (inbound : Inbound) (w : World),
        MCP_API_KEY env = None ->
        in_key inbound = None ->
        exists answer calls, run w (server host env inbound) = (Passed answer, calls)).
Proof.
  intros claim.
  destruct (claim Sample.host Sample.env_without_secret
                  (mkInbound "OPTIONS" "/functions/get_slack_messages" None
                             (ReqBody (JObj [("channel", JStr "C1")])))
                  (Sample.world [Sample.history]) eq_refl eq_refl)
    as (answer & made & H).
  vm_compute in H. discriminate H.
Qed.

(** C9, amended: when MCP_API_KEY is unset, a request without an x-api-key
    header that express.json() and cors() pass on goes through the gate,
    undefined being compared with undefined, and reaches its handler: the
    answer and the outbound calls of the server are those of the handler of
    the route the request is handed to. *)
Theorem keyless_request_reaches_handler
  (host : Host) (env : Env) (inbound : Inbound) (w : World) (v : Value) :
  MCP_API_KEY env = None ->
  in_key inbound = None ->
  in_parsed inbound = ReqBody v ->
  in_method inbound <> "OPTIONS" ->
  (forall route,
      dispatched host (mkRequest (in_method inbound) (in_path inbound) None v)
      = Some route ->
      run w (server host env inbound)
      = (Passed (Some (fst (run w (handler host env
                                     (mkRequest (in_method inbound) (in_path inbound) None v)
                                     route)))),
         snd (run w (handler host env
                       (mkRequest (in_method inbound) (in_path inbound) None v) route))))
  /\ (dispatched host (mkRequest (in_method inbound) (in_path inbound) None v) = None ->
      run w (server host env inbound) = (Passed None, [])).
Proof.
  intros Henv Hkey Hparsed Hmethod.
  rewrite (server_passes host env inbound v w Hparsed Hmethod), Hkey.
  assert (Hgate : app host env (mkRequest (in_method inbound) (in_path inbound) None v)
                  = routes host env (mkRequest (in_method inbound) (in_path inbound) None v)).
  { unfold app, auth. simpl. rewrite Henv. simpl.
    destruct (String.eqb (in_path inbound) "/health"); reflexivity. }
  rewrite Hgate, routes_dispatched.
  split.
  - intros route Hroute. rewrite Hroute. unfold answered.
    rewrite run_pbind_ret. reflexivity.
  - intros Hnone. rewrite Hnone. reflexivity.
Qed.

Lemma keyless_request_reaches_handler_witness :
  run (Sample.world [Sample.history])
      (server Sample.host Sample.env_without_secret
         (mkInbound "POST" "/functions/get_slack_messages" None
                    (ReqBody (JObj [("channel", JStr "C1")]))))
  = (Passed (Some (mkResponse 200 (JObj [("success", JBool true);
                                         ("messages", JArr Sample.three_messages);
                                         ("count", JNum "3");
                                         ("has_more", JBool false)]))),
     [Sample.history_call]).
Proof.
  refine (eq_trans
            (proj1 (keyless_request_reaches_handler Sample.host Sample.env_without_secret
                      (mkInbound "POST" "/functions/get_slack_messages" None
                                 (ReqBody (JObj [("channel", JStr "C1")])))
                      (Sample.world [Sample.history])
                      (JObj [("channel", JStr "C1")])
                      eq_refl eq_refl eq_refl _)
                   GetSlackMessages eq_refl)
            eq_refl).
  simpl. discriminate.
Defined.

(** ** Validation and configuration, before any outbound call *)

Lemma get_slack_messages_validation
  (host : Host) (env : Env) (req : Request) (w : World) :
  nullish (body req) = false ->
  truthy (getOpt (body req) "channel") = false ->
  run w (get_slack_messages host env req)
  = (mkResponse 400 (error (JStr "channel parameter is required")), []).
Proof.
  intros Hbody Hchannel. unfold get_slack_messages.
  rewrite !(get_present _ _ Hbody).
  revert Hchannel. fields req. intros Hchannel.
  handler. rewrite Hchannel. reflexivity.
Qed.

Lemma save_to_github_validation
  (host : Host) (env : Env) (req : Request) (w : World) :
  nullish (body req) = false ->
  truthy (getOpt (body req) "path") = false
  \/ truthy (getOpt (body req) "content") = false ->
  run w (save_to_github host env req)
  = (mkResponse 400 (error (JStr "path and content parameters are required")), []).
Proof.
  intros Hbody Hmissing. unfold save_to_github.
  rewrite !(get_present _ _ Hbody).
  revert Hmissing. fields req. intros Hmissing.
  handler.
  destruct Hmissing as [H|H]; rewrite H; simpl.
  - reflexivity.
  - rewrite orb_true_r. reflexivity.
Qed.

(** With a body to read the fields from, a request whose channel (for
    get_slack_messages) or path or content (for save_to_github) is empty or
    absent is answered 400, and no outbound call is made. *)
Lemma missing_fields_rejected_without_calls
  (host : Host) (env : Env) (req : Request) (w : World) :
  (forall channel,
      get (body req) "channel" = Ok channel ->
      truthy channel = false ->
      run w (get_slack_messages host env req)
      = (mkResponse 400 (error (JStr "channel parameter is required")), []))
  /\ (forall file content,
         get (body req) "path" = Ok file ->
         get (body req) "content" = Ok content ->
         truthy file = false \/ truthy content = false ->
         run w (save_to_github host env req)
         = (mkResponse 400 (error (JStr "path and content parameters are required")),
            [])).
Proof.
  split.
  - intros channel Hget Hchannel. destruct (get_read _ _ _ Hget) as [Hbody <-].
    now apply get_slack_messages_validation.
  - intros file content Hfile Hcontent Hmissing.
    destruct (get_read _ _ _ Hfile) as [Hbody <-].
    destruct (get_read _ _ _ Hcontent) as [_ <-].
    now apply save_to_github_validation.
Qed.

(** C7, the failing input: a request without a body.  Reading the fields of
    line 64 (and of line 109) throws, and the handler's catch answers 500,
    where the claim has 400; no outbound call is made. *)
Theorem bodyless_request_is_answered_500
  (host : Host) (env : Env) (req : Request) (w : World) :
  nullish (body req) = true ->
  run w (get_slack_messages host env req)
  = (mkResponse 500 (JObj [("error", JStr (engineText host (NullishRead "channel")))]), [])
  /\ run w (save_to_github host env req)
     = (mkResponse 500 (JObj [("error", JStr (engineText host (NullishRead "path")))]), []).
Proof.
  intros Hbody. unfold get_slack_messages, save_to_github.
  destruct (body req); try discriminate Hbody; split; reflexivity.
Qed.

Lemma bodyless_request_is_answered_500_witness :
  run (Sample.world [Sample.history])
      (get_slack_messages Sample.host Sample.env
         (Sample.post "/functions/get_slack_messages" (Some "s3cret") JUndefined))
  = (mkResponse 500 (JObj [("error", JStr "TypeError")]), [])
  /\ run (Sample.world [Sample.history])
         (save_to_github Sample.host Sample.env
            (Sample.post "/functions/get_slack_messages" (Some "s3cret") JUndefined))
     = (mkResponse 500 (JObj [("error", JStr "TypeError")]), []).
Proof.
  exact (bodyless_request_is_answered_500 Sample.host Sample.env
           (Sample.post "/functions/get_slack_messages" (Some "s3cret") JUndefined)
           (Sample.world [Sample.history]) eq_refl).
Defined.

Lemma get_slack_messages_unconfigured
  (host : Host) (env : Env) (req : Request) (w : World) :
  nullish (body req) = false ->
  truthy (getOpt (body req) "channel") = true ->
  configured (SLACK_BOT_TOKEN env) = None ->
  run w (get_slack_messages host env req)
  = (mkResponse 500 (error (JStr "SLACK_BOT_TOKEN not configured")), []).
Proof.
  intros Hbody Hchannel Htoken. unfold get_slack_messages.
  rewrite !(get_present _ _ Hbody), Htoken.
  revert Hchannel. fields req. intros Hchannel.
  handler. rewrite Hchannel. reflexivity.
Qed.

Lemma save_to_github_unconfigured
  (host : Host) (env : Env) (req : Request) (w : World) :
  nullish (body req) = false ->
  truthy (getOpt (body req) "path") = true ->
  truthy (getOpt (body req) "content") = true ->
  configured (GITHUB_TOKEN env) = None
  \/ configured (GITHUB_OWNER env) = None
  \/ configured (GITHUB_REPO env) = None ->
  run w (save_to_github host env req)
  = (mkResponse 500 (error (JStr "GitHub credentials not configured")), []).
Proof.
  intros Hbody Hpath Hcontent Hmissing. unfold save_to_github.
  rewrite !(get_present _ _ Hbody).
  revert Hpath Hcontent. fields req. intros Hpath Hcontent.
  handler. rewrite Hpath, Hcontent. simpl.
  destruct Hmissing as [H|[H|H]]; rewrite H;
    repeat match goal with
           | |- context [match configured ?v with _ => _ end] =>
               destruct (configured v)
           end; reflexivity.
Qed.

(** C8: for a validated request, get_slack_messages answers 500 with an
    error body when SLACK_BOT_TOKEN is unset, and save_to_github answers 500
    with an error body when GITHUB_TOKEN, GITHUB_OWNER or GITHUB_REPO is
    unset; neither run makes an outbound call. *)
Theorem unset_configuration_fails_without_calls
  (host : Host) (env : Env) (req : Request) (w : World) :
  (truthy (getOpt (body req) "channel") = true ->
   SLACK_BOT_TOKEN env = None ->
   run w (get_slack_messages host env req)
   = (mkResponse 500 (error (JStr "SLACK_BOT_TOKEN not configured")), []))
  /\ (truthy (getOpt (body req) "path") = true ->
      truthy (getOpt (body req) "content") = true ->
      GITHUB_TOKEN env = None \/ GITHUB_OWNER env = None \/ GITHUB_REPO env = None ->
      run w (save_to_github host env req)
      = (mkResponse 500 (error (JStr "GitHub credentials not configured")), [])).
Proof.
  split.
  - intros Hchannel Htoken.
    apply get_slack_messages_unconfigured; try assumption.
    + now apply truthy_getOpt_present with "channel".
    + rewrite Htoken. reflexivity.
  - intros Hpath Hcontent Hmissing.
    apply save_to_github_unconfigured; try assumption.
    + now apply truthy_getOpt_present with "path".
    + destruct Hmissing as [H|[H|H]]; rewrite H; auto.
Qed.

Lemma unset_configuration_fails_without_calls_witness :
  run (Sample.world [Sample.history])
      (get_slack_messages Sample.host Sample.env_without_tokens
         (mkRequest "POST" "/functions" (Some "s3cret")
            (JObj [("channel", JStr "C1"); ("path", JStr "a.md"); ("content", JStr "hello")])))
  = (mkResponse 500 (error (JStr "SLACK_BOT_TOKEN not configured")), [])
  /\ run (Sample.world [Sample.history])
         (save_to_github Sample.host Sample.env_without_tokens
            (mkRequest "POST" "/functions" (Some "s3cret")
               (JObj [("channel", JStr "C1"); ("path", JStr "a.md"); ("content", JStr "hello")])))
     = (mkResponse 500 (error (JStr "GitHub credentials not configured")), []).
Proof.
  destruct (unset_configuration_fails_without_calls Sample.host Sample.env_without_tokens
              (mkRequest "POST" "/functions" (Some "s3cret")
                 (JObj [("channel", JStr "C1"); ("path", JStr "a.md");
                        ("content", JStr "hello")]))
              (Sample.world [Sample.history]))
    as [Hslack Hgithub].
  split.
  - apply Hslack; reflexivity.
  - apply Hgithub; try reflexivity. left. reflexivity.
Defined.

(** ** The provider reports a failure *)

Lemma get_slack_messages_provider_failure
  (host : Host) (env : Env) (req : Request) (w : World)
  (slackToken : string) (rq : OutReq) (r : FetchResponse) (data flag : Value) :
  nullish (body req) = false ->
  truthy (getOpt (body req) "channel") = true ->
  configured (SLACK_BOT_TOKEN env) = Some slackToken ->
  history_request slackToken (getOpt (body req) "channel")
    (orDefault (getOpt (body req) "limit") (JNum "100"))
    (getOpt (body req) "older_than") = Ok rq ->
  outcome w 0 = Responded r ->
  json r = Ok data ->
  get data "ok" = Ok flag ->
  truthy flag = false ->
  run w (get_slack_messages host env req)
  = (mkResponse 400 (error (or (getOpt data "error") (JStr "Slack API error"))), [rq]).
Proof.
  intros Hbody Hchannel Htoken Hrq Hout Hjson Hok Hflag. unfold get_slack_messages.
  rewrite !(get_present _ _ Hbody), Htoken.
  revert Hchannel Hrq. fields req. intros Hchannel Hrq.
  handler. rewrite Hchannel. simpl. rewrite Hrq. simpl.
  rewrite Hout. unfold history_reply. simpl. rewrite Hjson. simpl. rewrite Hok. simpl.
  rewrite Hflag. simpl.
  assert (Hdata : nullish data = false) by (destruct data; try discriminate Hok; reflexivity).
  rewrite (get_present _ _ Hdata). reflexivity.
Qed.

(** C6, as stated, fails for the empty error string: it is replaced by the
    default text. *)
Lemma empty_provider_error_not_forwarded :
  ~ (forall (host : Host) (env : Env) (req : Request) (w : World)
            (r : FetchResponse) (data : Value) (X : string),
        outcome w 0 = Responded r ->
        json r = Ok data ->
        get data "ok" = Ok (JBool false) ->
        get data "error" = Ok (JStr X) ->
        fst (run w (get_slack_messages host env req))
        = mkResponse 400 (error (JStr X))).
Proof.
  intros claim.
  specialize (claim Sample.host Sample.env (Sample.messages_request (JStr "C1"))
                    (Sample.world [Sample.slack_failure [("error", JStr "")]])
                    (mkFetchResponse 200
                       (Ok (JObj [("ok", JBool false); ("error", JStr "")])))
                    (JObj [("ok", JBool false); ("error", JStr "")]) ""
                    eq_refl eq_refl eq_refl eq_refl).
  vm_compute in claim. discriminate claim.
Qed.

(** C6, amended: when the provider answers ok:false with a non-empty error
    string X, get_slack_messages answers 400 with {error: X}; when the error
    string is absent or empty, the body is {error: "Slack API error"}. *)
Theorem provider_error_forwarded
  (host : Host) (env : Env) (req : Request) (w : World)
  (slackToken : string) (rq : OutReq) (r : FetchResponse) (data : Value) :
  truthy (getOpt (body req) "channel") = true ->
  configured (SLACK_BOT_TOKEN env) = Some slackToken ->
  history_request slackToken (getOpt (body req) "channel")
    (orDefault (getOpt (body req) "limit") (JNum "100"))
    (getOpt (body req) "older_than") = Ok rq ->
  outcome w 0 = Responded r ->
  json r = Ok data ->
  get data "ok" = Ok (JBool false) ->
  (forall X, get data "error" = Ok (JStr X) -> X <> "" ->
             run w (get_slack_messages host env req)
             = (mkResponse 400 (error (JStr X)), [rq]))
  /\ (get data "error" = Ok JUndefined \/ get data "error" = Ok (JStr "") ->
      run w (get_slack_messages host env req)
      = (mkResponse 400 (error (JStr "Slack API error")), [rq])).
Proof.
  intros Hchannel Htoken Hrq Hout Hjson Hok.
  pose proof (truthy_getOpt_present _ _ Hchannel) as Hbody.
  pose proof (get_slack_messages_provider_failure host env req w slackToken rq r data
                (JBool false) Hbody Hchannel Htoken Hrq Hout Hjson Hok eq_refl) as Hrun.
  split.
  - intros X HX Hne. rewrite Hrun. unfold getOpt. rewrite HX.
    unfold or. simpl. destruct X; [now elim Hne | reflexivity].
  - intros [HX|HX]; rewrite Hrun; unfold getOpt; rewrite HX; reflexivity.
Qed.

Lemma provider_error_forwarded_witness :
  run (Sample.world [Sample.slack_failure [("error", JStr "channel_not_found")]])
      (get_slack_messages Sample.host Sample.env (Sample.messages_request (JStr "C1")))
  = (mkResponse 400 (error (JStr "channel_not_found")),
     [mkOutReq "GET"
        (WithSearch "https://slack.com/api/conversations.history"
                    [("channel", "C1"); ("limit", "100")])
        [("Authorization", "Bearer xoxb-1"); ("Content-Type", "application/json")]
        None]).
Proof.
  refine (proj1 (provider_error_forwarded Sample.host Sample.env
                   (Sample.messages_request (JStr "C1"))
                   (Sample.world [Sample.slack_failure [("error", JStr "channel_not_found")]])
                   "xoxb-1" _ _ _ eq_refl eq_refl eq_refl eq_refl eq_refl eq_refl)
                "channel_not_found" eq_refl _).
  discriminate.
Defined.

(** ** The repository write *)

Lemma save_to_github_run
  (host : Host) (env : Env) (req : Request) (w : World)
  (githubToken githubOwner githubRepo p b content64 : string) :
  nullish (body req) = false ->
  truthy (getOpt (body req) "path") = true ->
  truthy (getOpt (body req) "content") = true ->
  configured (GITHUB_TOKEN env) = Some githubToken ->
  configured (GITHUB_OWNER env) = Some githubOwner ->
  configured (GITHUB_REPO env) = Some githubRepo ->
  toStr (getOpt (body req) "path") = Ok p ->
  toStr (orDefault (getOpt (body req) "branch") (JStr "main")) = Ok b ->
  encode host (getOpt (body req) "content") = Ok content64 ->
  run w (save_to_github host env req)
  = (recover host (rbind (responded (outcome w 1)) save_reply),
     [lookup_request githubToken (contents githubOwner githubRepo p ++ "?ref=" ++ b);
      put_request githubToken (contents githubOwner githubRepo p)
        (with_sha [("message", or (getOpt (body req) "message")
                                  (JStr "Update from Slack context"));
                   ("content", JStr content64);
                   ("branch", orDefault (getOpt (body req) "branch") (JStr "main"))]
                  (existing_sha (outcome w 0)))]).
Proof.
  intros Hbody Hpath Hcontent Htoken Howner Hrepo Hp Hb Hc. unfold save_to_github.
  rewrite !(get_present _ _ Hbody), Htoken, Howner, Hrepo.
  revert Hpath Hcontent Hp Hb Hc. fields req. intros Hpath Hcontent Hp Hb Hc.
  handler. rewrite Hpath, Hcontent. simpl. rewrite Hp, Hb. simpl.
  rewrite Hc. simpl.
  destruct (outcome w 1) as [message|response]; reflexivity.
Qed.

Lemma slack_to_github_context_run
  (host : Host) (env : Env) (req : Request) (w : World)
  (slackToken githubToken githubOwner githubRepo p document : string)
  (rq : OutReq) (slackResponse : FetchResponse) (slackData flag messages : Value) :
  nullish (body req) = false ->
  truthy (getOpt (body req) "slack_channel") = true ->
  truthy (getOpt (body req) "github_path") = true ->
  configured (SLACK_BOT_TOKEN env) = Some slackToken ->
  history_request slackToken (getOpt (body req) "slack_channel")
    (orDefault (getOpt (body req) "message_limit") (JNum "100")) JUndefined = Ok rq ->
  outcome w 0 = Responded slackResponse ->
  json slackResponse = Ok slackData ->
  get slackData "ok" = Ok flag ->
  truthy flag = true ->
  or (getOpt slackData "messages") (JArr []) = messages ->
  markdownContent host (clock w 0) messages = Ok document ->
  configured (GITHUB_TOKEN env) = Some githubToken ->
  configured (GITHUB_OWNER env) = Some githubOwner ->
  configured (GITHUB_REPO env) = Some githubRepo ->
  toStr (getOpt (body req) "github_path") = Ok p ->
  run w (slack_to_github_context host env req)
  = (recover host (rbind (responded (outcome w 2)) (context_reply messages)),
     [rq;
      lookup_request githubToken (contents githubOwner githubRepo p);
      put_request githubToken (contents githubOwner githubRepo p)
        (with_sha [("message", commit_text w (getOpt (body req) "commit_message"));
                   ("content", JStr (base64 host document));
                   ("branch", JStr "main")]
                  (existing_sha (outcome w 1)))]).
Proof.
  intros Hbody Hchannel Hpath Hslack Hrq Hout Hjson Hok Hflag Hmessages Hdoc
         Htoken Howner Hrepo Hp.
  unfold slack_to_github_context.
  rewrite !(get_present _ _ Hbody), Hslack, Htoken, Howner, Hrepo.
  unfold commit_text.
  revert Hchannel Hpath Hrq Hp. fields req. intros Hchannel Hpath Hrq Hp.
  handler. rewrite Hchannel, Hpath. simpl. rewrite Hrq. simpl.
  rewrite Hout. simpl. rewrite Hjson. simpl. rewrite Hok. simpl.
  rewrite Hflag. simpl.
  assert (Hdata : nullish slackData = false)
    by (destruct slackData; try discriminate Hok; reflexivity).
  rewrite (get_present _ _ Hdata). simpl. rewrite Hmessages, Hdoc. simpl.
  rewrite Hp. simpl.
  destruct (truthy arg2); simpl;
    destruct (outcome w 2) as [message|response]; reflexivity.
Qed.

Lemma context_run
  (host : Host) (env : Env) (req : Request) (w : World)
  (rq : OutReq) (messages : list Value)
  (document githubToken githubOwner githubRepo p : string) :
  context_reaches_store host env req w rq messages document
                        githubToken githubOwner githubRepo p ->
  run w (slack_to_github_context host env req)
  = (recover host (rbind (responded (outcome w 2)) (context_reply (JArr messages))),
     [rq;
      lookup_request githubToken (contents githubOwner githubRepo p);
      put_request githubToken (contents githubOwner githubRepo p)
        (with_sha [("message", commit_text w (getOpt (body req) "commit_message"));
                   ("content", JStr (base64 host document));
                   ("branch", JStr "main")]
                  (existing_sha (outcome w 1)))]).
Proof.
  intros (Hchannel & Hpath & (slackToken & Hslack & Hrq)
          & (slackResponse & slackData & flag & Hout & Hjson & Hok & Hflag & Hmessages)
          & Hdoc & Htoken & Howner & Hrepo & Hp).
  pose proof (truthy_getOpt_present _ _ Hchannel) as Hbody.
  now apply (slack_to_github_context_run host env req w slackToken githubToken
               githubOwner githubRepo p document rq slackResponse slackData flag
               (JArr messages)).
Qed.

Lemma save_run
  (host : Host) (env : Env) (req : Request) (w : World)
  (githubToken githubOwner githubRepo p b content64 : string) :
  save_reaches_store host env req githubToken githubOwner githubRepo p b content64 ->
  run w (save_to_github host env req)
  = (recover host (rbind (responded (outcome w 1)) save_reply),
     [lookup_request githubToken (contents githubOwner githubRepo p ++ "?ref=" ++ b);
      put_request githubToken (contents githubOwner githubRepo p)
        (with_sha [("message", or (getOpt (body req) "message")
                                  (JStr "Update from Slack context"));
                   ("content", JStr content64);
                   ("branch", orDefault (getOpt (body req) "branch") (JStr "main"))]
                  (existing_sha (outcome w 0)))]).
Proof.
  intros (Hpath & Hcontent & Htoken & Howner & Hrepo & Hp & Hb & Hc).
  pose proof (truthy_getOpt_present _ _ Hpath) as Hbody.
  now apply save_to_github_run.
Qed.

Lemma existing_sha_found (out : FetchOutcome) (token : Value) :
  existing_sha out = token /\ truthy token = true <-> found out token.
Proof.
  split.
  - intros [Hsha Htoken]. destruct out as [message|checkResponse]; simpl in Hsha.
    + subst token. discriminate Htoken.
    + destruct (ok checkResponse) eqn:Hok; [| subst token; discriminate Htoken].
      destruct (json checkResponse) as [existing|e] eqn:Hjson;
        [| subst token; discriminate Htoken].
      exists checkResponse, existing. repeat split; try assumption.
      now apply truthy_getOpt_get.
  - intros (checkResponse & existing & -> & Hok & Hjson & Hget & Htoken).
    split; [| exact Htoken].
    simpl. rewrite Hok, Hjson. unfold getOpt. rewrite Hget. reflexivity.
Qed.

Lemma with_sha_token (props : list (string * Value)) (sha token : Value) :
  hasOwn "sha" props = false ->
  exists sent, with_sha props sha = JObj sent
    /\ (In ("sha", token) sent <-> sha = token /\ truthy token = true)
    /\ (truthy sha = false -> hasOwn "sha" sent = false).
Proof.
  intros Hfresh. unfold with_sha. eexists. split; [reflexivity|]. split.
  - rewrite in_app_iff. split.
    + intros [Hin|Hin].
      * exfalso. unfold hasOwn in Hfresh.
        assert (existsb (fun kv => String.eqb (fst kv) "sha") props = true) as Habs.
        { apply existsb_exists. exists ("sha", token). split; [exact Hin | reflexivity]. }
        congruence.
      * destruct (truthy sha) eqn:Hsha; simpl in Hin; [| contradiction].
        destruct Hin as [Heq|[]]. inversion Heq. subst token. auto.
    + intros [-> Htoken]. right. rewrite Htoken. left. reflexivity.
  - intros Hsha. rewrite Hsha, app_nil_r. exact Hfresh.
Qed.

Lemma sample_context_reaches_store (lookup write : FetchOutcome) :
  context_reaches_store Sample.host Sample.env Sample.context_request
    (Sample.world [Sample.history; lookup; write])
    Sample.history_call Sample.three_messages Sample.document
    "ghp-1" "octo" "notes" "ctx.md".
Proof.
  repeat split.
  - exists "xoxb-1". split; reflexivity.
  - eexists _, _, _. repeat split.
Defined.

Lemma sample_save_reaches_store :
  save_reaches_store Sample.host Sample.env Sample.save_request
    "ghp-1" "octo" "notes" "ctx.md" "dev" "base64:hello".
Proof. repeat split. Defined.

(** ** The rendered document *)

Lemma string_app_assoc (a b c : string) : ((a ++ b) ++ c = a ++ (b ++ c))%string.
Proof.
  induction a as [|ch a IH]; simpl; [reflexivity | now rewrite IH].
Qed.

Lemma markdownContent_layout
  (host : Host) (generated : string) (msgs : list Value) (entries : list string) :
  Forall2 (fun msg e => render_message host msg = Ok e) msgs entries ->
  markdownContent host generated (JArr msgs)
  = Ok (layout generated (List.length msgs) (rev entries)).
Proof.
  intros Hentries. unfold markdownContent. simpl.
  rewrite (mapR_Forall2 _ _ _ (Forall2_rev _ _ _ Hentries)). simpl.
  reflexivity.
Qed.

Lemma markdownContent_presents
  (host : Host) (generated doc : string) (msgs : list Value) :
  markdownContent host generated (JArr msgs) = Ok doc ->
  presents host generated doc (rev msgs).
Proof.
  unfold markdownContent. simpl.
  destruct (mapR (render_message host) (rev msgs)) as [entries|e] eqn:Hentries;
    simpl; intros H; [| discriminate H].
  injection H as <-. exists entries. split.
  - now apply mapR_Ok.
  - rewrite length_rev. reflexivity.
Qed.

Lemma render_message_to_json (host : Host) (m : SlackMessage) :
  render_message host (to_json m) = Ok (entry host m).
Proof.
  destruct m as [t u n x].
  destruct t as [t|], u as [[|cu u]|], n as [[|cn n]|], x as [[|cx x]|];
    unfold entry, author, message_text, local_time, lines, render_message, to_json;
    simpl; rewrite ?string_app_assoc; simpl; rewrite ?string_app_assoc; reflexivity.
Qed.

Lemma Forall2_map_entries (host : Host) (ms : list SlackMessage) :
  Forall2 (fun msg e => render_message host msg = Ok e)
          (map to_json ms) (map (entry host) ms).
Proof.
  induction ms as [|m ms IH]; simpl; constructor.
  - apply render_message_to_json.
  - exact IH.
Qed.

Lemma holds_lookup (props : list (string * Value)) (name : string) (o : option string) :
  holds props name o ->
  lookup name props = match o with
                      | Some value => JStr value
                      | None => JUndefined
                      end.
Proof.
  intros [Hnone | before after value -> Hfirst].
  - induction props as [|[k v] props IH]; simpl; [reflexivity|].
    destruct (String.eqb_spec k name) as [->|_].
    + exfalso. apply (Hnone v). left. reflexivity.
    + apply IH. intros v' Hin. apply (Hnone v'). right. exact Hin.
  - induction before as [|[k v] before IH]; simpl.
    + rewrite String.eqb_refl. reflexivity.
    + destruct (String.eqb_spec k name) as [->|_].
      * exfalso. apply (Hfirst v). left. reflexivity.
      * apply IH. intros v' Hin. apply (Hfirst v'). right. exact Hin.
Qed.

Lemma render_message_shows (host : Host) (props : list (string * Value)) (m : SlackMessage) :
  shows props m -> render_message host (JObj props) = Ok (entry host m).
Proof.
  intros (Hts & Huser & Hname & Htext).
  unfold render_message. simpl.
  rewrite (holds_lookup _ _ _ Hts), (holds_lookup _ _ _ Huser),
    (holds_lookup _ _ _ Hname), (holds_lookup _ _ _ Htext).
  destruct m as [t u n x]. simpl.
  destruct t as [t|], u as [[|cu u]|], n as [[|cn n]|], x as [[|cx x]|];
    unfold entry, author, message_text, local_time, lines;
    simpl; rewrite ?string_app_assoc; simpl; rewrite ?string_app_assoc; reflexivity.
Qed.

Lemma unlines_app (a b : list string) :
  unlines (a ++ b) = (unlines a ++ unlines b)%string.
Proof.
  induction a as [|l a IH]; simpl; [reflexivity|].
  rewrite IH, string_app_assoc. reflexivity.
Qed.

Lemma entry_unlines (host : Host) (m : SlackMessage) :
  (entry host m ++ nl)%string = unlines (entry_lines host m).
Proof.
  unfold entry, entry_lines, lines, rule. simpl.
  rewrite !string_app_assoc. simpl. rewrite !string_app_assoc. reflexivity.
Qed.

Lemma entries_unlines (host : Host) (ms : list SlackMessage) :
  (join (nl ++ nl) (map (entry host) ms) ++ nl)%string
  = unlines (body_lines (map (entry_lines host) ms)).
Proof.
  induction ms as [|m ms IH]; [reflexivity|].
  destruct ms as [|m' ms].
  - simpl map. simpl join. simpl body_lines. apply entry_unlines.
  - change (join (nl ++ nl) (map (entry host) (m :: m' :: ms)))
      with (entry host m ++ (nl ++ nl) ++ join (nl ++ nl) (map (entry host) (m' :: ms)))%string.
    change (body_lines (map (entry_lines host) (m :: m' :: ms)))
      with (entry_lines host m ++ "" :: body_lines (map (entry_lines host) (m' :: ms))).
    rewrite unlines_app, <- entry_unlines.
    change (unlines ("" :: body_lines (map (entry_lines host) (m' :: ms))))
      with (nl ++ unlines (body_lines (map (entry_lines host) (m' :: ms))))%string.
    rewrite <- IH. rewrite !string_app_assoc. reflexivity.
Qed.

Lemma layout_unlines (host : Host) (generated : string) (total : nat)
  (ms : list SlackMessage) :
  layout generated total (map (entry host) ms)
  = unlines (head_lines generated total ++ body_lines (map (entry_lines host) ms)).
Proof.
  rewrite unlines_app, <- entries_unlines.
  unfold layout, lines, head_lines, rule. simpl.
  rewrite !string_app_assoc. simpl. rewrite !string_app_assoc. reflexivity.
Qed.

Lemma Forall2_shows_entries (host : Host) (objs : list (list (string * Value)))
  (ms : list SlackMessage) :
  Forall2 shows objs ms ->
  Forall2 (fun msg e => render_message host msg = Ok e)
          (map JObj objs) (map (entry host) ms).
Proof.
  induction 1 as [| props m objs ms Hshows _ IH]; simpl; constructor.
  - now apply render_message_shows.
  - exact IH.
Qed.

(** C5: the document rendered from a sequence of messages, each a JSON
    object whose ts, user, username and text are strings or absent, whatever
    else it holds, is, line by line: a title line, a line with the
    generation time, a line with the number of messages, a blank line, a
    rule, a blank line, and then, for each message, a level-3 heading
    "author - local time", a blank line, the text, a blank line and a rule,
    with a blank line between two messages.  The author is the user, else
    the user name, else "Unknown", and an absent text is the empty
    string. *)
Theorem document_line_by_line
  (host : Host) (generated : string)
  (objs : list (list (string * Value))) (ms : list SlackMessage) :
  Forall2 shows objs ms ->
  markdownContent host generated (JArr (map JObj objs))
  = Ok (unlines
          (["# Slack Context from Channel";
            ("Generated: " ++ generated)%string;
            ("Total messages: " ++ dec (List.length objs))%string;
            ""; "---"; ""]
           ++ body_lines
                (map (fun m => [("### " ++ author m ++ " - " ++ local_time host m)%string;
                                ""; message_text m; ""; "---"])
                     (rev ms))))
  /\ (forall m, user m = None -> username m = None -> author m = "Unknown")
  /\ (forall m, text m = None -> message_text m = "").
Proof.
  intros Hshows. repeat split.
  - rewrite (markdownContent_layout host generated _ _
               (Forall2_shows_entries host objs ms Hshows)).
    rewrite length_map, <- map_rev, layout_unlines. reflexivity.
  - intros m Huser Hname. unfold author. rewrite Huser, Hname. reflexivity.
  - intros m Htext. unfold message_text. rewrite Htext. reflexivity.
Qed.

Lemma document_line_by_line_witness :
  markdownContent Sample.host "G"
    (JArr [JObj [("type", JStr "message"); ("text", JStr "hello");
                 ("user", JStr "U1"); ("ts", JStr "8"); ("team", JStr "T1")];
           JObj [("subtype", JStr "bot_message"); ("ts", JStr "7")]])
  = Ok (unlines ["# Slack Context from Channel"; "Generated: G"; "Total messages: 2";
                 ""; "---"; "";
                 "### Unknown - at 7"; ""; ""; ""; "---";
                 "";
                 "### U1 - at 8"; ""; "hello"; ""; "---"]).
Proof.
  refine (proj1 (document_line_by_line Sample.host "G"
                   [[("type", JStr "message"); ("text", JStr "hello");
                     ("user", JStr "U1"); ("ts", JStr "8"); ("team", JStr "T1")];
                    [("subtype", JStr "bot_message"); ("ts", JStr "7")]]
                   [mkSlackMessage (Some "8") (Some "U1") None (Some "hello");
                    mkSlackMessage (Some "7") None None None] _)).
  assert (Habsent : forall (props : list (string * Value)) (name : string),
             hasOwn name props = false -> holds props name None).
  { intros props name Hfresh. apply holds_none. intros v Hin.
    unfold hasOwn in Hfresh.
    assert (existsb (fun kv => String.eqb (fst kv) name) props = true) as Habs.
    { apply existsb_exists. exists (name, v). split; [exact Hin|].
      apply String.eqb_refl. }
    congruence. }
  apply Forall2_cons; [| apply Forall2_cons; [| apply Forall2_nil]];
    (split; [| split; [| split]]); simpl.
  - apply (holds_some _ _ [("type", JStr "message"); ("text", JStr "hello");
                           ("user", JStr "U1")] [("team", JStr "T1")] "8");
      [reflexivity|]. intros v [H|[H|[H|[]]]]; discriminate H.
  - apply (holds_some _ _ [("type", JStr "message"); ("text", JStr "hello")]
                      [("ts", JStr "8"); ("team", JStr "T1")] "U1");
      [reflexivity|]. intros v [H|[H|[]]]; discriminate H.
  - now apply Habsent.
  - apply (holds_some _ _ [("type", JStr "message")]
                      [("user", JStr "U1"); ("ts", JStr "8"); ("team", JStr "T1")] "hello");
      [reflexivity|]. intros v [H|[]]; discriminate H.
  - apply (holds_some _ _ [("subtype", JStr "bot_message")] [] "7");
      [reflexivity|]. intros v [H|[]]; discriminate H.
  - now apply Habsent.
  - now apply Habsent.
  - now apply Habsent.
Defined.

(** ** The failed write and the version token *)

(** C3, as stated, fails: when the write is rejected before the store
    answers, the answer carries the error alone, without
    slack_messages_retrieved. *)
Lemma rejected_write_reports_no_count :
  ~ (forall (host : Host) (env : Env) (req : Request) (w : World)
            (rq : OutReq) (messages : list Value)
            (document githubToken githubOwner githubRepo p : string),
        context_reaches_store host env req w rq messages document
                              githubToken githubOwner githubRepo p ->
        write_failed (outcome w 2) = true ->
        getOpt (payload (fst (run w (slack_to_github_context host env req))))
               "slack_messages_retrieved"
        = ofNat (List.length messages)).
Proof.
  intros claim.
  specialize (claim Sample.host Sample.env Sample.context_request
                    (Sample.world [Sample.history; Sample.not_found])
                    Sample.history_call Sample.three_messages Sample.document
                    "ghp-1" "octo" "notes" "ctx.md"
                    (sample_context_reaches_store Sample.not_found (Rejected "fetch failed"))
                    eq_refl).
  vm_compute in claim. discriminate claim.
Qed.

(** C3, amended: when the message fetch succeeds with n messages and the
    write fails, slack_to_github_context answers with a status outside
    200-299 and a body that has an error and no success.  When the store
    answered the write, with a failure status and a JSON value other than
    null, the status is the store's and the body is made of error, the
    store's reported message (the default text when it reports none), and
    slack_messages_retrieved, equal to n. *)
Theorem failed_write_answers
  (host : Host) (env : Env) (req : Request) (w : World)
  (rq : OutReq) (messages : list Value)
  (document githubToken githubOwner githubRepo p : string) :
  context_reaches_store host env req w rq messages document
                        githubToken githubOwner githubRepo p ->
  (write_failed (outcome w 2) = true ->
   exists props,
     payload (fst (run w (slack_to_github_context host env req))) = JObj props
     /\ (code (fst (run w (slack_to_github_context host env req))) < 200
         \/ 299 < code (fst (run w (slack_to_github_context host env req))))
     /\ hasOwn "error" props = true
     /\ hasOwn "success" props = false)
  /\ (forall githubResponse githubData,
         outcome w 2 = Responded githubResponse ->
         ok githubResponse = false ->
         json githubResponse = Ok githubData ->
         nullish githubData = false ->
         fst (run w (slack_to_github_context host env req))
         = mkResponse (status githubResponse)
             (JObj [("error", or (getOpt githubData "message") (JStr "GitHub API error"));
                    ("slack_messages_retrieved", ofNat (List.length messages))])
         /\ (forall reported,
                getOpt githubData "message" = JStr reported -> reported <> "" ->
                or (getOpt githubData "message") (JStr "GitHub API error")
                = JStr reported)).
Proof.
  intros Hreach. rewrite (context_run _ _ _ _ _ _ _ _ _ _ _ Hreach). simpl fst.
  assert (Hstatus : forall r, ok r = false -> status r < 200 \/ 299 < status r).
  { intros r Hfail. unfold ok in Hfail. apply andb_false_iff in Hfail.
    destruct Hfail as [H|H]; apply Nat.leb_gt in H; [left | right]; exact H. }
  split.
  - intros Hfailed. destruct (outcome w 2) as [message|githubResponse]; simpl in *.
    + eexists. repeat split. right. lia.
    + apply negb_true_iff in Hfailed. unfold context_reply.
      destruct (json githubResponse) as [githubData|e]; simpl.
      * rewrite Hfailed. simpl.
        destruct (get githubData "message") as [text|e]; simpl.
        -- eexists. repeat split. now apply Hstatus.
        -- eexists. repeat split. right. lia.
      * eexists. repeat split. right. lia.
  - intros githubResponse githubData Hout Hfail Hjson Hdata. split.
    + rewrite Hout. simpl. unfold context_reply. rewrite Hjson. simpl.
      rewrite Hfail. simpl. rewrite (get_present _ _ Hdata). reflexivity.
    + intros reported -> Hreported. unfold or. simpl.
      destruct reported; [now elim Hreported | reflexivity].
Qed.

Lemma failed_write_answers_witness :
  fst (run (Sample.world [Sample.history; Sample.not_found; Sample.conflict])
           (slack_to_github_context Sample.host Sample.env Sample.context_request))
  = mkResponse 409
      (JObj [("error", JStr "is at abc123 but expected def456");
             ("slack_messages_retrieved", JNum "3")]).
Proof.
  exact (proj1 (proj2 (failed_write_answers
                   Sample.host Sample.env Sample.context_request
                   (Sample.world [Sample.history; Sample.not_found; Sample.conflict])
                   Sample.history_call Sample.three_messages Sample.document
                   "ghp-1" "octo" "notes" "ctx.md"
                   (sample_context_reaches_store Sample.not_found Sample.conflict))
                 (mkFetchResponse 409
                    (Ok (JObj [("message", JStr "is at abc123 but expected def456")])))
                 (JObj [("message", JStr "is at abc123 but expected def456")])
                 eq_refl eq_refl eq_refl eq_refl)).
Defined.

(** C4: in both writing handlers the body of the create-or-update request
    (the PUT that ends the run) has a sha property exactly when the lookup
    before it succeeded and yielded a token, and then it is that token; when
    the lookup found none, the body has no sha property. *)
Theorem write_includes_sha_iff_found
  (host : Host) (env : Env) (w : World)
  (githubToken githubOwner githubRepo : string) :
  (forall req p b content64,
      save_reaches_store host env req githubToken githubOwner githubRepo p b content64 ->
      exists check write sent,
        snd (run w (save_to_github host env req)) = [check; write]
        /\ rq_method check = "GET"
        /\ rq_method write = "PUT"
        /\ rq_body write = Some (JObj sent)
        /\ (forall token, In ("sha", token) sent <-> found (outcome w 0) token)
        /\ ((forall token, ~ found (outcome w 0) token) -> hasOwn "sha" sent = false))
  /\ (forall req rq messages document p,
         context_reaches_store host env req w rq messages document
                               githubToken githubOwner githubRepo p ->
         exists check write sent,
           snd (run w (slack_to_github_context host env req)) = [rq; check; write]
           /\ rq_method check = "GET"
           /\ rq_method write = "PUT"
           /\ rq_body write = Some (JObj sent)
           /\ (forall token, In ("sha", token) sent <-> found (outcome w 1) token)
           /\ ((forall token, ~ found (outcome w 1) token) -> hasOwn "sha" sent = false)).
Proof.
  assert (Hsent : forall props out,
             hasOwn "sha" props = false ->
             exists sent, with_sha props (existing_sha out) = JObj sent
               /\ (forall token, In ("sha", token) sent <-> found out token)
               /\ ((forall token, ~ found out token) -> hasOwn "sha" sent = false)).
  { intros props out Hfresh.
    destruct (with_sha_token props (existing_sha out) (existing_sha out) Hfresh)
      as (sent & Hsent & _ & Hnone).
    exists sent. split; [exact Hsent|]. split.
    - intros token.
      destruct (with_sha_token props (existing_sha out) token Hfresh)
        as (sent' & Hsent' & Hin & _).
      assert (sent' = sent) by congruence. subst sent'.
      rewrite Hin. apply existing_sha_found.
    - intros Hnever. apply Hnone.
      destruct (truthy (existing_sha out)) eqn:Htruthy; [| reflexivity].
      exfalso. apply (Hnever (existing_sha out)).
      apply existing_sha_found. auto. }
  split.
  - intros req p b content64 Hreach. rewrite (save_run _ _ _ _ _ _ _ _ _ _ Hreach).
    simpl snd.
    match goal with
    | |- context [with_sha ?props (existing_sha ?out)] =>
        destruct (Hsent props out eq_refl) as (sent & Hbody & Hin & Hnone)
    end.
    eexists _, _, sent. split; [reflexivity|].
    split; [reflexivity|]. split; [reflexivity|].
    split; [simpl; now rewrite Hbody|]. split; assumption.
  - intros req rq messages document p Hreach.
    rewrite (context_run _ _ _ _ _ _ _ _ _ _ _ Hreach). simpl snd.
    match goal with
    | |- context [with_sha ?props (existing_sha ?out)] =>
        destruct (Hsent props out eq_refl) as (sent & Hbody & Hin & Hnone)
    end.
    eexists _, _, sent. split; [reflexivity|].
    split; [reflexivity|]. split; [reflexivity|].
    split; [simpl; now rewrite Hbody|]. split; assumption.
Qed.

Lemma write_includes_sha_iff_found_witness :
  exists check write,
    snd (run (Sample.world [Sample.found; Sample.created])
             (save_to_github Sample.host Sample.env Sample.save_request))
    = [check; write]
    /\ rq_method write = "PUT"
    /\ rq_body write
       = Some (JObj [("message", JStr "Update from Slack context");
                     ("content", JStr "base64:hello");
                     ("branch", JStr "dev");
                     ("sha", JStr "abc123")]).
Proof.
  destruct (proj1 (write_includes_sha_iff_found Sample.host Sample.env
                     (Sample.world [Sample.found; Sample.created])
                     "ghp-1" "octo" "notes")
                  Sample.save_request "ctx.md" "dev" "base64:hello"
                  sample_save_reaches_store)
    as (check & write & sent & Hcalls & _ & Hput & Hbody & Hin & _).
  exists check, write. split; [exact Hcalls|]. split; [exact Hput|].
  vm_compute in Hcalls. injection Hcalls as _ <-. reflexivity.
Defined.

(** ** The order of the messages *)

(** C1, as stated, fails on its example: the sequence is reversed, not
    sorted, so timestamps [3,1,2] are not presented as [1,2,3]. *)
Lemma example_3_1_2_not_presented_sorted :
  ~ (forall (host : Host) (generated doc : string),
        markdownContent host generated (JArr [stamped "3"; stamped "1"; stamped "2"])
        = Ok doc ->
        presents host generated doc [stamped "1"; stamped "2"; stamped "3"]).
Proof.
  intros claim.
  destruct (claim Sample.host "G" _ eq_refl) as (entries & Hentries & Hdoc).
  inversion Hentries as [| m1 e1 l1 r1 H1 Hrest1]; subst.
  inversion Hrest1 as [| m2 e2 l2 r2 H2 Hrest2]; subst.
  inversion Hrest2 as [| m3 e3 l3 r3 H3 Hrest3]; subst.
  inversion Hrest3; subst.
  vm_compute in H1, H2, H3.
  injection H1 as <-. injection H2 as <-. injection H3 as <-.
  vm_compute in Hdoc. discriminate Hdoc.
Qed.

(** C1, amended: the provider's sequence is reversed before rendering, so
    the document lists the messages in the exact reverse of the provider's
    order; given messages with timestamps [3,1,2] as returned, it presents
    them in the order [2,1,3]. *)
Theorem document_presents_reverse
  (host : Host) (generated : string) (msgs : list Value) (entries : list string) :
  Forall2 (fun msg e => render_message host msg = Ok e) msgs entries ->
  (exists doc,
      markdownContent host generated (JArr msgs) = Ok doc
      /\ presents host generated doc (rev msgs)
      /\ doc = layout generated (List.length msgs) (rev entries))
  /\ (exists doc,
         markdownContent host generated (JArr [stamped "3"; stamped "1"; stamped "2"])
         = Ok doc
         /\ presents host generated doc [stamped "2"; stamped "1"; stamped "3"]).
Proof.
  intros Hentries. split.
  - exists (layout generated (List.length msgs) (rev entries)).
    split; [now apply markdownContent_layout|]. split; [| reflexivity].
    exists (rev entries). split.
    + now apply Forall2_rev.
    + rewrite length_rev. reflexivity.
  - eexists. split; [reflexivity|].
    eexists. split.
    + repeat constructor.
    + reflexivity.
Qed.

Lemma document_presents_reverse_witness :
  exists doc,
    markdownContent Sample.host "2026-01-01T00:00:00.000Z" (JArr Sample.three_messages)
    = Ok doc
    /\ presents Sample.host "2026-01-01T00:00:00.000Z" doc (rev Sample.three_messages).
Proof.
  destruct (proj1 (document_presents_reverse Sample.host "2026-01-01T00:00:00.000Z"
                     Sample.three_messages
                     ["### U3 - at 3" ++ nl ++ nl ++ "third" ++ nl ++ nl ++ "---";
                      "### U2 - at 2" ++ nl ++ nl ++ "second" ++ nl ++ nl ++ "---";
                      "### U1 - at 1" ++ nl ++ nl ++ "first" ++ nl ++ nl ++ "---"]%string
                     ltac:(repeat constructor)))
    as (doc & Hdoc & Hpresents & _).
  exists doc. split; assumption.
Defined.

(** The document committed by slack_to_github_context is the rendered one:
    the write carries its base64 text, and it presents the provider's
    messages in reverse. *)
Corollary context_writes_reversed_document
  (host : Host) (env : Env) (req : Request) (w : World)
  (rq : OutReq) (messages : list Value)
  (document githubToken githubOwner githubRepo p : string) :
  context_reaches_store host env req w rq messages document
                        githubToken githubOwner githubRepo p ->
  (exists write sent,
      nth_error (snd (run w (slack_to_github_context host env req))) 2 = Some write
      /\ rq_body write = Some (JObj sent)
      /\ getOpt (JObj sent) "content" = JStr (base64 host document))
  /\ presents host (clock w 0) document (rev messages).
Proof.
  intros Hreach. split.
  - rewrite (context_run _ _ _ _ _ _ _ _ _ _ _ Hreach). simpl.
    unfold with_sha. eexists _, _. repeat split.
  - destruct Hreach as (_ & _ & _ & _ & Hdoc & _).
    now apply markdownContent_presents.
Qed.

Lemma query_of_app (a b : string) :
  query_of a = None -> query_of (a ++ b) = query_of b.
Proof.
  induction a as [|c a IH]; simpl; [reflexivity|].
  destruct (Ascii.eqb c "?"); [discriminate | exact IH].
Qed.

Lemma contents_query (githubOwner githubRepo p : string) :
  query_of githubOwner = None -> query_of githubRepo = None ->
  query_of (contents githubOwner githubRepo p) = query_of p.
Proof.
  intros Howner Hrepo. unfold contents. simpl.
  rewrite (query_of_app _ _ Howner). simpl.
  rewrite (query_of_app _ _ Hrepo). reflexivity.
Qed.

Lemma contents_carries_no_ref (githubOwner githubRepo p : string) :
  query_of githubOwner = None -> query_of githubRepo = None -> query_of p = None ->
  carries_ref (Literal (contents githubOwner githubRepo p)) = false.
Proof.
  intros Howner Hrepo Hp. unfold carries_ref.
  rewrite (contents_query _ _ _ Howner Hrepo), Hp. reflexivity.
Qed.

Lemma ref_address_carries_ref (githubOwner githubRepo p b : string) :
  query_of githubOwner = None -> query_of githubRepo = None -> query_of p = None ->
  carries_ref (Literal (contents githubOwner githubRepo p ++ "?ref=" ++ b)) = true.
Proof.
  intros Howner Hrepo Hp. unfold carries_ref.
  rewrite query_of_app.
  - reflexivity.
  - now rewrite (contents_query _ _ _ Howner Hrepo).
Qed.

(** C10, as stated, fails: the path is written into the address as it is,
    so a path that itself ends in "?ref=dev" gives a lookup with a ref
    parameter. *)
Lemma path_can_carry_ref :
  ~ (forall (host : Host) (env : Env) (req : Request) (w : World)
            (rq : OutReq) (messages : list Value)
            (document githubToken githubOwner githubRepo p : string) (check : OutReq),
        context_reaches_store host env req w rq messages document
                              githubToken githubOwner githubRepo p ->
        nth_error (snd (run w (slack_to_github_context host env req))) 1 = Some check ->
        carries_ref (rq_url check) = false).
Proof.
  intros claim.
  assert (Hreach : context_reaches_store Sample.host Sample.env
                     (Sample.post "/functions/slack_to_github_context" (Some "s3cret")
                        (JObj [("slack_channel", JStr "C1");
                               ("github_path", JStr "ctx.md?ref=dev")]))
                     (Sample.world [Sample.history; Sample.not_found; Sample.created])
                     Sample.history_call Sample.three_messages Sample.document
                     "ghp-1" "octo" "notes" "ctx.md?ref=dev").
  { repeat split.
    - exists "xoxb-1". split; reflexivity.
    - eexists _, _, _. repeat split. }
  specialize (claim _ _ _ _ _ _ _ _ _ _ _
                    (lookup_request "ghp-1"
                       "https://api.github.com/repos/octo/notes/contents/ctx.md?ref=dev")
                    Hreach eq_refl).
  vm_compute in claim. discriminate claim.
Qed.

(** C10, amended: the lookup of slack_to_github_context asks for the
    contents address of the path as it is, the very address of the write,
    and adds no ref parameter to it, so that it has one only if the path
    itself brings a query; the write names the branch "main".  The lookup of
    save_to_github asks for that address followed by "?ref=" and the
    requested branch. *)
Theorem lookup_ref_only_in_save_to_github
  (host : Host) (env : Env) (w : World)
  (githubToken githubOwner githubRepo : string) :
  (forall req rq messages document p,
      context_reaches_store host env req w rq messages document
                            githubToken githubOwner githubRepo p ->
      exists check write sent,
        snd (run w (slack_to_github_context host env req)) = [rq; check; write]
        /\ rq_method check = "GET"
        /\ rq_url check
           = Literal ("https://api.github.com/repos/" ++ githubOwner ++ "/" ++ githubRepo
                      ++ "/contents/" ++ p)
        /\ rq_url write = rq_url check
        /\ rq_method write = "PUT"
        /\ rq_body write = Some (JObj sent)
        /\ getOpt (JObj sent) "branch" = JStr "main"
        /\ (query_of githubOwner = None -> query_of githubRepo = None ->
            query_of p = None -> carries_ref (rq_url check) = false))
  /\ (forall req p b content64,
         save_reaches_store host env req githubToken githubOwner githubRepo p b content64 ->
         exists check write sent,
           snd (run w (save_to_github host env req)) = [check; write]
           /\ rq_method check = "GET"
           /\ rq_url check
              = Literal ("https://api.github.com/repos/" ++ githubOwner ++ "/" ++ githubRepo
                         ++ "/contents/" ++ p ++ "?ref=" ++ b)
           /\ toStr (orDefault (getOpt (body req) "branch") (JStr "main")) = Ok b
           /\ rq_method write = "PUT"
           /\ rq_body write = Some (JObj sent)
           /\ getOpt (JObj sent) "branch"
              = orDefault (getOpt (body req) "branch") (JStr "main")
           /\ (query_of githubOwner = None -> query_of githubRepo = None ->
               query_of p = None -> carries_ref (rq_url check) = true)).
Proof.
  split.
  - intros req rq messages document p Hreach.
    rewrite (context_run _ _ _ _ _ _ _ _ _ _ _ Hreach). simpl snd.
    unfold with_sha. eexists _, _, _. split; [reflexivity|].
    repeat split.
    intros Howner Hrepo Hp.
    exact (contents_carries_no_ref githubOwner githubRepo p Howner Hrepo Hp).
  - intros req p b content64 Hreach.
    rewrite (save_run _ _ _ _ _ _ _ _ _ _ Hreach). simpl snd.
    unfold with_sha. eexists _, _, _. split; [reflexivity|].
    split; [reflexivity|]. split.
    { simpl. unfold contents. rewrite !string_app_assoc. simpl.
      rewrite !string_app_assoc. reflexivity. }
    split.
    { destruct Hreach as (_ & _ & _ & _ & _ & _ & Hb & _). exact Hb. }
    repeat split.
    intros Howner Hrepo Hp.
    exact (ref_address_carries_ref githubOwner githubRepo p b Howner Hrepo Hp).
Qed.

Lemma lookup_ref_only_in_save_to_github_witness :
  (exists check write,
      snd (run (Sample.world [Sample.history; Sample.not_found; Sample.created])
               (slack_to_github_context Sample.host Sample.env Sample.context_request))
      = [Sample.history_call; check; write]
      /\ rq_url check = Literal "https://api.github.com/repos/octo/notes/contents/ctx.md"
      /\ carries_ref (rq_url check) = false
      /\ rq_body write
         = Some (JObj [("message", JStr "Update Slack context - 2026-01-02T00:00:00.000Z");
                       ("content", JStr (base64 Sample.host Sample.document));
                       ("branch", JStr "main")]))
  /\ (exists check write,
         snd (run (Sample.world [Sample.history; Sample.not_found; Sample.created])
                  (save_to_github Sample.host Sample.env Sample.save_request))
         = [check; write]
         /\ rq_url check
            = Literal "https://api.github.com/repos/octo/notes/contents/ctx.md?ref=dev"
         /\ carries_ref (rq_url check) = true).
Proof.
  destruct (lookup_ref_only_in_save_to_github Sample.host Sample.env
              (Sample.world [Sample.history; Sample.not_found; Sample.created])
              "ghp-1" "octo" "notes")
    as [Hcontext Hsave].
  split.
  - destruct (Hcontext Sample.context_request Sample.history_call Sample.three_messages
                Sample.document "ctx.md"
                (sample_context_reaches_store Sample.not_found Sample.created))
      as (check & write & sent & Hcalls & _ & Hurl & _ & _ & Hbody & _ & Hplain).
    exists check, write. split; [exact Hcalls|]. split; [exact Hurl|].
    split; [apply Hplain; reflexivity|].
    vm_compute in Hcalls. injection Hcalls as _ <-. reflexivity.
  - destruct (Hsave Sample.save_request "ctx.md" "dev" "base64:hello"
                sample_save_reaches_store)
      as (check & write & sent & Hcalls & _ & Hurl & _ & _ & _ & _ & Hplain).
    exists check, write. split; [exact Hcalls|]. split; [exact Hurl|].
    apply Hplain; reflexivity.
Defined.

(** ** What every run does *)

Lemma exec_Always {A} (Q : A -> Prop) (p : Prog A) (w : World) (log : Log) :
  Always Q p -> Q (fst (exec w p log)).
Proof.
  intros H. revert log. induction H as [a Ha | rq k _ IH | k _ IH]; intros log; simpl.
  - exact Ha.
  - apply IH.
  - apply IH.
Qed.

Lemma run_Always {A} (Q : A -> Prop) (p : Prog A) (w : World) :
  Always Q p -> Q (fst (run w p)).
Proof.
  intros H. unfold run.
  pose proof (exec_Always Q p w (mkLog [] 0) H) as HQ.
  destruct (exec w p (mkLog [] 0)) as [a log]. exact HQ.
Qed.

Lemma Matches_weaken (kinds : list (OutReq -> bool)) (kind : OutReq -> bool)
  (made : list OutReq) :
  Matches kinds made -> Matches (kind :: kinds) made.
Proof. apply Matches_skip. Qed.

Lemma exec_Follows {A} (kinds : list (OutReq -> bool)) (p : Prog A) (w : World) (log : Log) :
  Follows kinds p ->
  exists made, calls (snd (exec w p log)) = calls log ++ made /\ Matches kinds made.
Proof.
  intros H. revert log.
  induction H as [kinds a | kind kinds rq k Hkind _ IH | kind kinds p _ IH | kinds k _ IH];
    intros log; simpl.
  - exists []. split; [now rewrite app_nil_r | constructor].
  - destruct (IH (outcome w (List.length (calls log)))
                 (mkLog (calls log ++ [rq]) (reads log))) as (made & Hcalls & Hmade).
    exists (rq :: made). split.
    + rewrite Hcalls. simpl. now rewrite <- app_assoc.
    + now constructor.
  - destruct (IH log) as (made & Hcalls & Hmade).
    exists made. split; [exact Hcalls | now apply Matches_skip].
  - destruct (IH (clock w (reads log)) (mkLog (calls log) (S (reads log))))
      as (made & Hcalls & Hmade).
    exists made. split; assumption.
Qed.

Lemma run_Follows {A} (kinds : list (OutReq -> bool)) (p : Prog A) (w : World) :
  Follows kinds p -> Matches kinds (snd (run w p)).
Proof.
  intros H. unfold run.
  destruct (exec_Follows kinds p w (mkLog [] 0) H) as (made & Hcalls & Hmade).
  destruct (exec w p (mkLog [] 0)) as [a log]. simpl in *. now subst.
Qed.

Lemma Matches_length (kinds : list (OutReq -> bool)) (made : list OutReq) :
  Matches kinds made -> List.length made <= List.length kinds.
Proof.
  induction 1; simpl; lia.
Qed.

Lemma exec_Leads {A} (kinds : list (OutReq -> bool)) (p : Prog A) (w : World) (log : Log) :
  Leads kinds p ->
  exists made, calls (snd (exec w p log)) = calls log ++ made /\ Starts kinds made.
Proof.
  intros H. revert log.
  induction H as [kinds a | kind kinds rq k Hkind _ IH | kinds k _ IH];
    intros log; simpl.
  - exists []. split; [now rewrite app_nil_r | constructor].
  - destruct (IH (outcome w (List.length (calls log)))
                 (mkLog (calls log ++ [rq]) (reads log))) as (made & Hcalls & Hmade).
    exists (rq :: made). split.
    + rewrite Hcalls. simpl. now rewrite <- app_assoc.
    + now constructor.
  - destruct (IH (clock w (reads log)) (mkLog (calls log) (S (reads log))))
      as (made & Hcalls & Hmade).
    exists made. split; assumption.
Qed.

Lemma run_Leads {A} (kinds : list (OutReq -> bool)) (p : Prog A) (w : World) :
  Leads kinds p -> Starts kinds (snd (run w p)).
Proof.
  intros H. unfold run.
  destruct (exec_Leads kinds p w (mkLog [] 0) H) as (made & Hcalls & Hmade).
  destruct (exec w p (mkLog [] 0)) as [a log]. simpl in *. now subst.
Qed.

Lemma Starts_length (kinds : list (OutReq -> bool)) (made : list OutReq) :
  Starts kinds made -> List.length made <= List.length kinds.
Proof.
  induction 1; simpl; lia.
Qed.

(** X6: whatever the request and whatever the provider answers,
    get_slack_messages makes no outbound call or exactly one, a read of the
    channel history; it never touches the store. *)
Theorem get_slack_messages_calls
  (host : Host) (env : Env) (req : Request) (w : World) :
  Starts [slack_get] (snd (run w (get_slack_messages host env req)))
  /\ List.length (snd (run w (get_slack_messages host env req))) <= 1.
Proof.
  assert (H : Starts [slack_get] (snd (run w (get_slack_messages host env req)))).
  { apply run_Leads.
    unfold get_slack_messages, catching, mbind, lift, ret, fetch, history_request, rbind.
    explore_strictly. }
  split; [exact H | exact (Starts_length _ _ H)].
Qed.

(** X7: whatever the request and whatever the store answers, save_to_github
    makes at most two outbound calls: at most one read of the contents API,
    then at most one write to it. *)
Theorem save_to_github_calls
  (host : Host) (env : Env) (req : Request) (w : World) :
  Matches [store_get; store_put] (snd (run w (save_to_github host env req)))
  /\ List.length (snd (run w (save_to_github host env req))) <= 2.
Proof.
  assert (H : Matches [store_get; store_put]
                (snd (run w (save_to_github host env req)))).
  { apply run_Follows.
    unfold save_to_github, catching, mbind, lift, ret, fetch, file_sha, rbind,
      lookup_request, put_request, with_sha.
    explore. }
  split; [exact H | exact (Matches_length _ _ H)].
Qed.

(** X8: whatever the request and whatever the provider and the store
    answer, the outbound calls of slack_to_github_context are, in this
    order, a read of the channel history, a read of the contents API and a
    write to it, the run stopping after any of them: the store is read only
    after the provider was called and written only after it was read, and
    there are at most three calls. *)
Theorem slack_to_github_context_calls
  (host : Host) (env : Env) (req : Request) (w : World) :
  Starts [slack_get; store_get; store_put]
         (snd (run w (slack_to_github_context host env req)))
  /\ List.length (snd (run w (slack_to_github_context host env req))) <= 3.
Proof.
  assert (H : Starts [slack_get; store_get; store_put]
                (snd (run w (slack_to_github_context host env req)))).
  { apply run_Leads.
    unfold slack_to_github_context, catching, mbind, lift, ret, fetch, now, file_sha,
      history_request, rbind, lookup_request, put_request, with_sha.
    explore_strictly. }
  split; [exact H | exact (Starts_length _ _ H)].
Qed.

(** X9: every answer of the three handlers is settled: either status 200
    with success:true and no error property, or another status with an
    error property and no success property. *)
Theorem answers_are_settled
  (host : Host) (env : Env) (req : Request) (w : World) :
  settled (fst (run w (get_slack_messages host env req)))
  /\ settled (fst (run w (save_to_github host env req)))
  /\ settled (fst (run w (slack_to_github_context host env req))).
Proof.
  repeat split; apply run_Always.
  - unfold get_slack_messages, catching, mbind, lift, ret, fetch, history_request,
      recover, responded, history_reply, rbind.
    explore_answers settle.
  - unfold save_to_github, catching, mbind, lift, ret, fetch, file_sha,
      recover, responded, save_reply, rbind.
    explore_answers settle.
  - unfold slack_to_github_context, catching, mbind, lift, ret, fetch, now, file_sha,
      history_request, recover, responded, context_reply, rbind.
    explore_answers settle.
Qed.

(** X10: get_slack_messages answers 200, 400 or 500 and nothing else: the
    status of the provider's response is never forwarded. *)
Theorem get_slack_messages_statuses
  (host : Host) (env : Env) (req : Request) (w : World) :
  own_status (fst (run w (get_slack_messages host env req))).
Proof.
  apply run_Always.
  unfold get_slack_messages, catching, mbind, lift, ret, fetch, history_request,
    recover, responded, history_reply, rbind.
  explore_answers ltac:(unfold own_status; simpl; auto).
Qed.

(** ** The liveness probe and the provider's page *)

(** X2: a request for /health that the router hands to the health route is
    answered 200 with status "healthy" and the time of the clock, whatever
    the configured secret and the request's key, and no outbound call is
    made. *)
Theorem health_needs_no_key
  (host : Host) (env : Env) (req : Request) (w : World) :
  path req = "/health" ->
  routeMatch host "get" "/health" (method req) (path req) = true ->
  run w (app host env req)
  = (Some (mkResponse 200 (JObj [("status", JStr "healthy");
                                 ("timestamp", JStr (clock w 0))])), []).
Proof.
  intros Hpath Hroute. unfold app, auth, routes.
  rewrite Hroute, Hpath. reflexivity.
Qed.

Lemma health_needs_no_key_witness :
  run (Sample.world []) (app Sample.host Sample.env (mkRequest "GET" "/health" None JUndefined))
  = (Some (mkResponse 200 (JObj [("status", JStr "healthy");
                                 ("timestamp", JStr "2026-01-01T00:00:00.000Z")])), []).
Proof.
  exact (health_needs_no_key Sample.host Sample.env
           (mkRequest "GET" "/health" None JUndefined) (Sample.world [])
           eq_refl eq_refl).
Defined.

Lemma dec_not_NaN (n : nat) : String.eqb (dec n) "NaN" = false.
Proof.
  unfold dec. destruct (Nat.to_uint n); reflexivity.
Qed.

Lemma count_or_zero (n : nat) : or (ofNat n) (ofNat 0) = ofNat n.
Proof.
  unfold or, ofNat. simpl. rewrite dec_not_NaN, orb_false_r.
  destruct (String.eqb_spec (dec n) "0") as [E|_]; simpl.
  - rewrite E. reflexivity.
  - reflexivity.
Qed.

Lemma get_slack_messages_page
  (host : Host) (env : Env) (req : Request) (w : World) (rq : OutReq) :
  messages_reaches_provider env req rq ->
  run w (get_slack_messages host env req)
  = (recover host (rbind (responded (outcome w 0)) history_reply), [rq]).
Proof.
  intros (Hchannel & slackToken & Htoken & Hrq).
  pose proof (truthy_getOpt_present _ _ Hchannel) as Hbody.
  unfold get_slack_messages.
  rewrite !(get_present _ _ Hbody), Htoken.
  revert Hchannel Hrq. fields req. intros Hchannel Hrq.
  handler. rewrite Hchannel. simpl. rewrite Hrq. simpl.
  destruct (outcome w 0); reflexivity.
Qed.

(** X3: when the provider's page is ok, get_slack_messages answers 200 with
    success:true, the page's messages as they came, their number as count,
    and has_more (false when the page does not say); absent messages are
    answered as the empty list with count 0.  The provider's own status is
    not looked at, and the call [rq] is the only one made. *)
Theorem page_is_passed_on
  (host : Host) (env : Env) (req : Request) (w : World)
  (rq : OutReq) (r : FetchResponse) (data : Value) :
  messages_reaches_provider env req rq ->
  outcome w 0 = Responded r ->
  json r = Ok data ->
  truthy (getOpt data "ok") = true ->
  (forall msgs,
      getOpt data "messages" = JArr msgs ->
      run w (get_slack_messages host env req)
      = (mkResponse 200 (JObj [("success", JBool true);
                               ("messages", JArr msgs);
                               ("count", ofNat (List.length msgs));
                               ("has_more", or (getOpt data "has_more") (JBool false))]),
         [rq]))
  /\ (truthy (getOpt data "messages") = false ->
      run w (get_slack_messages host env req)
      = (mkResponse 200 (JObj [("success", JBool true);
                               ("messages", JArr []);
                               ("count", ofNat 0);
                               ("has_more", or (getOpt data "has_more") (JBool false))]),
         [rq])).
Proof.
  intros Hreach Hout Hjson Hok.
  pose proof (truthy_getOpt_present _ _ Hok) as Hdata.
  rewrite (get_slack_messages_page host env req w rq Hreach), Hout. simpl.
  unfold history_reply. rewrite Hjson. simpl.
  rewrite !(get_present _ _ Hdata). simpl. rewrite Hok. simpl.
  split.
  - intros msgs Hmsgs. rewrite Hmsgs.
    change (getOpt (JArr msgs) "length") with (ofNat (List.length msgs)).
    rewrite count_or_zero. reflexivity.
  - intros Hnone. unfold or at 1. rewrite Hnone.
    destruct (getOpt data "messages") as [| |b|n|s|items|props];
      try discriminate Hnone; try reflexivity.
    destruct s; [reflexivity | discriminate Hnone].
Qed.

Lemma sample_messages_reaches_provider :
  messages_reaches_provider Sample.env (Sample.messages_request (JStr "C1"))
                            Sample.history_call.
Proof.
  split; [reflexivity|]. exists "xoxb-1". split; reflexivity.
Defined.

Lemma page_is_passed_on_witness :
  run (Sample.world [Sample.history])
      (get_slack_messages Sample.host Sample.env (Sample.messages_request (JStr "C1")))
  = (mkResponse 200 (JObj [("success", JBool true);
                           ("messages", JArr Sample.three_messages);
                           ("count", JNum "3");
                           ("has_more", JBool false)]),
     [Sample.history_call]).
Proof.
  exact (proj1 (page_is_passed_on Sample.host Sample.env
                  (Sample.messages_request (JStr "C1")) (Sample.world [Sample.history])
                  Sample.history_call _ _
                  sample_messages_reaches_provider eq_refl eq_refl eq_refl)
               Sample.three_messages eq_refl).
Defined.

(** X4: when the call to the provider is rejected, or its answer is not
    JSON, get_slack_messages answers 500 with the error's message, after the
    one call. *)
Theorem provider_unreachable
  (host : Host) (env : Env) (req : Request) (w : World) (rq : OutReq) :
  messages_reaches_provider env req rq ->
  (forall message,
      outcome w 0 = Rejected message ->
      run w (get_slack_messages host env req)
      = (mkResponse 500 (error (JStr message)), [rq]))
  /\ (forall r e,
         outcome w 0 = Responded r ->
         json r = Throw e ->
         run w (get_slack_messages host env req)
         = (mkResponse 500 (error (JStr (messageOf host e))), [rq])).
Proof.
  intros Hreach.
  rewrite (get_slack_messages_page host env req w rq Hreach).
  split.
  - intros message Hout. rewrite Hout. reflexivity.
  - intros r e Hout Hjson. rewrite Hout. simpl.
    unfold history_reply. rewrite Hjson. reflexivity.
Qed.

Lemma provider_unreachable_witness :
  run (Sample.world [])
      (get_slack_messages Sample.host Sample.env (Sample.messages_request (JStr "C1")))
  = (mkResponse 500 (error (JStr "fetch failed")), [Sample.history_call]).
Proof.
  exact (proj1 (provider_unreachable Sample.host Sample.env
                  (Sample.messages_request (JStr "C1")) (Sample.world [])
                  Sample.history_call sample_messages_reaches_provider)
               "fetch failed" eq_refl).
Defined.

(** X5: the one call of get_slack_messages asks the provider for the
    request's channel with limit 100 when the request gives none, and
    carries the cursor, as "oldest", exactly when the request's older_than
    is truthy, written out as a string; it is authorised by the configured
    token as a bearer. *)
Theorem history_call_parameters
  (host : Host) (env : Env) (req : Request) (w : World)
  (slackToken channel : string) :
  configured (SLACK_BOT_TOKEN env) = Some slackToken ->
  get (body req) "channel" = Ok (JStr channel) ->
  channel <> "" ->
  get (body req) "limit" = Ok JUndefined ->
  (truthy (getOpt (body req) "older_than") = false ->
   snd (run w (get_slack_messages host env req))
   = [mkOutReq "GET"
        (WithSearch "https://slack.com/api/conversations.history"
                    [("channel", channel); ("limit", "100")])
        [("Authorization", ("Bearer " ++ slackToken)%string);
         ("Content-Type", "application/json")]
        None])
  /\ (forall cursor,
         truthy (getOpt (body req) "older_than") = true ->
         toStr (getOpt (body req) "older_than") = Ok cursor ->
         snd (run w (get_slack_messages host env req))
         = [mkOutReq "GET"
              (WithSearch "https://slack.com/api/conversations.history"
                          [("channel", channel); ("limit", "100"); ("oldest", cursor)])
              [("Authorization", ("Bearer " ++ slackToken)%string);
               ("Content-Type", "application/json")]
              None]).
Proof.
  intros Htoken Hchannel Hne Hlimit.
  destruct (get_read _ _ _ Hchannel) as [_ Hc].
  destruct (get_read _ _ _ Hlimit) as [_ Hl].
  assert (Htruthy : truthy (getOpt (body req) "channel") = true).
  { rewrite Hc. simpl. destruct channel; [now elim Hne | reflexivity]. }
  split.
  - intros Hcursor.
    rewrite (get_slack_messages_page host env req w
               (mkOutReq "GET"
                  (WithSearch "https://slack.com/api/conversations.history"
                              [("channel", channel); ("limit", "100")])
                  [("Authorization", ("Bearer " ++ slackToken)%string);
                   ("Content-Type", "application/json")] None)).
    + reflexivity.
    + split; [exact Htruthy|]. exists slackToken. split; [exact Htoken|].
      unfold history_request. rewrite Hc, Hl, Hcursor. reflexivity.
  - intros cursor Hcursor Htext.
    rewrite (get_slack_messages_page host env req w
               (mkOutReq "GET"
                  (WithSearch "https://slack.com/api/conversations.history"
                              [("channel", channel); ("limit", "100"); ("oldest", cursor)])
                  [("Authorization", ("Bearer " ++ slackToken)%string);
                   ("Content-Type", "application/json")] None)).
    + reflexivity.
    + split; [exact Htruthy|]. exists slackToken. split; [exact Htoken|].
      unfold history_request. rewrite Hc, Hl, Hcursor. simpl.
      rewrite Htext. reflexivity.
Qed.

Lemma history_call_parameters_witness :
  snd (run (Sample.world [Sample.history])
           (get_slack_messages Sample.host Sample.env
              (Sample.post "/functions/get_slack_messages" (Some "s3cret")
                 (JObj [("channel", JStr "C1"); ("older_than", JNum "1700000000.5")]))))
  = [mkOutReq "GET"
       (WithSearch "https://slack.com/api/conversations.history"
                   [("channel", "C1"); ("limit", "100"); ("oldest", "1700000000.5")])
       [("Authorization", "Bearer xoxb-1"); ("Content-Type", "application/json")]
       None].
Proof.
  exact (proj2 (history_call_parameters Sample.host Sample.env
                  (Sample.post "/functions/get_slack_messages" (Some "s3cret")
                     (JObj [("channel", JStr "C1"); ("older_than", JNum "1700000000.5")]))
                  (Sample.world [Sample.history])
                  "xoxb-1" "C1" eq_refl eq_refl ltac:(discriminate) eq_refl)
               "1700000000.5" eq_refl eq_refl).
Defined.

(** ** The store's answer to save_to_github *)

(** X11: once save_to_github has written, it passes the store's answer on:
    a 2xx answer gives 200 with success:true, the commit's sha and the
    file's html_url; any other status is forwarded with the store's message
    as error ("GitHub API error" when it gives none). *)
Theorem store_answer_is_passed_on
  (host : Host) (env : Env) (req : Request) (w : World)
  (githubToken githubOwner githubRepo p b content64 : string)
  (r : FetchResponse) (data : Value) :
  save_reaches_store host env req githubToken githubOwner githubRepo p b content64 ->
  outcome w 1 = Responded r ->
  json r = Ok data ->
  nullish data = false ->
  (ok r = true ->
   fst (run w (save_to_github host env req))
   = mkResponse 200 (JObj [("success", JBool true);
                           ("commit_sha", getOpt (getOpt data "commit") "sha");
                           ("file_url", getOpt (getOpt data "content") "html_url")]))
  /\ (ok r = false ->
      fst (run w (save_to_github host env req))
      = mkResponse (status r)
          (error (or (getOpt data "message") (JStr "GitHub API error")))).
Proof.
  intros Hreach Hout Hjson Hdata.
  rewrite (save_run _ _ _ _ _ _ _ _ _ _ Hreach). simpl.
  rewrite Hout. simpl. unfold save_reply. rewrite Hjson. simpl.
  rewrite !(get_present _ _ Hdata).
  split; intros Hok; rewrite Hok; reflexivity.
Qed.

Lemma store_answer_is_passed_on_witness :
  fst (run (Sample.world [Sample.found; Sample.created])
           (save_to_github Sample.host Sample.env Sample.save_request))
  = mkResponse 200 (JObj [("success", JBool true);
                          ("commit_sha", JStr "c0ffee");
                          ("file_url",
                           JStr "https://github.com/octo/notes/blob/main/ctx.md")]).
Proof.
  exact (proj1 (store_answer_is_passed_on Sample.host Sample.env Sample.save_request
                  (Sample.world [Sample.found; Sample.created])
                  "ghp-1" "octo" "notes" "ctx.md" "dev" "base64:hello" _ _
                  sample_save_reaches_store eq_refl eq_refl eq_refl)
               eq_refl).
Defined.

(** X12: when the content of a save_to_github request cannot be turned into
    a buffer, the answer is 500 with the error's message; the lookup has
    been made by then, and nothing is written. *)
Theorem unencodable_content_is_not_written
  (host : Host) (env : Env) (req : Request) (w : World)
  (githubToken githubOwner githubRepo p b : string) (e : Exn) :
  truthy (getOpt (body req) "path") = true ->
  truthy (getOpt (body req) "content") = true ->
  configured (GITHUB_TOKEN env) = Some githubToken ->
  configured (GITHUB_OWNER env) = Some githubOwner ->
  configured (GITHUB_REPO env) = Some githubRepo ->
  toStr (getOpt (body req) "path") = Ok p ->
  toStr (orDefault (getOpt (body req) "branch") (JStr "main")) = Ok b ->
  encode host (getOpt (body req) "content") = Throw e ->
  run w (save_to_github host env req)
  = (mkResponse 500 (error (JStr (messageOf host e))),
     [lookup_request githubToken (contents githubOwner githubRepo p ++ "?ref=" ++ b)]).
Proof.
  intros Hpath Hcontent Htoken Howner Hrepo Hp Hb Hc.
  pose proof (truthy_getOpt_present _ _ Hpath) as Hbody.
  unfold save_to_github.
  rewrite !(get_present _ _ Hbody), Htoken, Howner, Hrepo.
  revert Hpath Hcontent Hp Hb Hc. fields req. intros Hpath Hcontent Hp Hb Hc.
  handler. rewrite Hpath, Hcontent. simpl. rewrite Hp, Hb. simpl.
  rewrite Hc. reflexivity.
Qed.

Lemma unencodable_content_is_not_written_witness :
  run (Sample.world [Sample.found; Sample.created])
      (save_to_github Sample.host Sample.env
         (Sample.post "/functions/save_to_github" (Some "s3cret")
            (JObj [("path", JStr "ctx.md"); ("content", JNum "5")])))
  = (mkResponse 500 (error (JStr "The first argument must be of type string")),
     [lookup_request "ghp-1"
        "https://api.github.com/repos/octo/notes/contents/ctx.md?ref=main"]).
Proof.
  exact (unencodable_content_is_not_written Sample.host Sample.env
           (Sample.post "/functions/save_to_github" (Some "s3cret")
              (JObj [("path", JStr "ctx.md"); ("content", JNum "5")]))
           (Sample.world [Sample.found; Sample.created])
           "ghp-1" "octo" "notes" "ctx.md" "main"
           (External "The first argument must be of type string")
           eq_refl eq_refl eq_refl eq_refl eq_refl eq_refl eq_refl eq_refl).
Defined.

(** ** The composite handler, stage by stage *)

(** X13: slack_to_github_context answers 400 when the request has a body in
    which slack_channel or github_path is empty or absent, 500 when the
    request has no body at all, and 500 when both fields are given and
    SLACK_BOT_TOKEN is unset; in all three cases no outbound call is
    made. *)
Theorem context_rejected_without_calls
  (host : Host) (env : Env) (req : Request) (w : World) :
  (forall channel file,
      get (body req) "slack_channel" = Ok channel ->
      get (body req) "github_path" = Ok file ->
      truthy channel = false \/ truthy file = false ->
      run w (slack_to_github_context host env req)
      = (mkResponse 400
           (error (JStr "slack_channel and github_path parameters are required")), []))
  /\ (nullish (body req) = true ->
      run w (slack_to_github_context host env req)
      = (mkResponse 500
           (JObj [("error", JStr (engineText host (NullishRead "slack_channel")))]), []))
  /\ (truthy (getOpt (body req) "slack_channel") = true ->
      truthy (getOpt (body req) "github_path") = true ->
      SLACK_BOT_TOKEN env = None ->
      run w (slack_to_github_context host env req)
      = (mkResponse 500 (error (JStr "SLACK_BOT_TOKEN not configured")), [])).
Proof.
  repeat split.
  - intros channel file Hchannel Hfile Hmissing.
    destruct (get_read _ _ _ Hchannel) as [Hbody <-].
    destruct (get_read _ _ _ Hfile) as [_ <-].
    unfold slack_to_github_context. rewrite !(get_present _ _ Hbody).
    revert Hmissing. fields req. intros Hmissing.
    handler. destruct Hmissing as [H|H]; rewrite H; simpl.
    + reflexivity.
    + rewrite orb_true_r. reflexivity.
  - intros Hbody. unfold slack_to_github_context.
    destruct (body req); try discriminate Hbody; reflexivity.
  - intros Hchannel Hfile Htoken.
    pose proof (truthy_getOpt_present _ _ Hchannel) as Hbody.
    unfold slack_to_github_context. rewrite !(get_present _ _ Hbody), Htoken.
    revert Hchannel Hfile. fields req. intros Hchannel Hfile.
    handler. rewrite Hchannel, Hfile. reflexivity.
Qed.

Lemma context_rejected_without_calls_witness :
  run (Sample.world [Sample.history])
      (slack_to_github_context Sample.host Sample.env_without_tokens
         (Sample.post "/functions/slack_to_github_context" (Some "s3cret")
            (JObj [("slack_channel", JStr "C1")])))
  = (mkResponse 400
       (error (JStr "slack_channel and github_path parameters are required")), [])
  /\ run (Sample.world [Sample.history])
         (slack_to_github_context Sample.host Sample.env_without_tokens
            (Sample.post "/functions/slack_to_github_context" (Some "s3cret") JUndefined))
     = (mkResponse 500 (JObj [("error", JStr "TypeError")]), [])
  /\ run (Sample.world [Sample.history])
         (slack_to_github_context Sample.host Sample.env_without_tokens
            Sample.context_request)
     = (mkResponse 500 (error (JStr "SLACK_BOT_TOKEN not configured")), []).
Proof.
  split; [| split].
  - apply (proj1 (context_rejected_without_calls Sample.host Sample.env_without_tokens
                    (Sample.post "/functions/slack_to_github_context" (Some "s3cret")
                       (JObj [("slack_channel", JStr "C1")]))
                    (Sample.world [Sample.history]))
                 (JStr "C1") JUndefined); try reflexivity.
    right. reflexivity.
  - apply (proj1 (proj2 (context_rejected_without_calls Sample.host
                           Sample.env_without_tokens
                           (Sample.post "/functions/slack_to_github_context"
                                        (Some "s3cret") JUndefined)
                           (Sample.world [Sample.history])))).
    reflexivity.
  - apply (proj2 (proj2 (context_rejected_without_calls Sample.host
                           Sample.env_without_tokens
                           Sample.context_request (Sample.world [Sample.history]))));
      reflexivity.
Defined.

(** X14: when the provider reports a failure, or cannot be reached,
    slack_to_github_context stops there: it answers 400 with the provider's
    error ("Slack API error" when it gives none), or 500 with the message of
    the rejection, and the call to the provider is the only one made, so the
    store is neither read nor written. *)
Theorem context_stops_at_provider_failure
  (host : Host) (env : Env) (req : Request) (w : World) (rq : OutReq) :
  context_reaches_provider env req rq ->
  (forall r data flag,
      outcome w 0 = Responded r ->
      json r = Ok data ->
      get data "ok" = Ok flag ->
      truthy flag = false ->
      run w (slack_to_github_context host env req)
      = (mkResponse 400 (error (or (getOpt data "error") (JStr "Slack API error"))),
         [rq]))
  /\ (forall message,
         outcome w 0 = Rejected message ->
         run w (slack_to_github_context host env req)
         = (mkResponse 500 (error (JStr message)), [rq])).
Proof.
  intros (Hchannel & Hfile & slackToken & Htoken & Hrq).
  pose proof (truthy_getOpt_present _ _ Hchannel) as Hbody.
  split.
  - intros r data flag Hout Hjson Hok Hflag.
    assert (Hdata : nullish data = false)
      by (destruct data; try discriminate Hok; reflexivity).
    unfold slack_to_github_context. rewrite !(get_present _ _ Hbody), Htoken.
    revert Hchannel Hfile Hrq. fields req. intros Hchannel Hfile Hrq.
    handler. rewrite Hchannel, Hfile. simpl. rewrite Hrq. simpl.
    rewrite Hout. simpl. rewrite Hjson. simpl. rewrite Hok. simpl.
    rewrite Hflag. simpl. rewrite (get_present _ _ Hdata). reflexivity.
  - intros message Hout.
    unfold slack_to_github_context. rewrite !(get_present _ _ Hbody), Htoken.
    revert Hchannel Hfile Hrq. fields req. intros Hchannel Hfile Hrq.
    handler. rewrite Hchannel, Hfile. simpl. rewrite Hrq. simpl.
    rewrite Hout. reflexivity.
Qed.

Lemma sample_context_reaches_provider :
  context_reaches_provider Sample.env Sample.context_request Sample.history_call.
Proof.
  repeat split. exists "xoxb-1". split; reflexivity.
Defined.

Lemma context_stops_at_provider_failure_witness :
  run (Sample.world [Sample.slack_failure [("error", JStr "channel_not_found")];
                     Sample.found; Sample.created])
      (slack_to_github_context Sample.host Sample.env Sample.context_request)
  = (mkResponse 400 (error (JStr "channel_not_found")), [Sample.history_call]).
Proof.
  exact (proj1 (context_stops_at_provider_failure Sample.host Sample.env
                  Sample.context_request
                  (Sample.world [Sample.slack_failure [("error", JStr "channel_not_found")];
                                 Sample.found; Sample.created])
                  Sample.history_call sample_context_reaches_provider)
               _ _ (JBool false) eq_refl eq_refl eq_refl eq_refl).
Defined.

Lemma context_page_run
  (host : Host) (env : Env) (req : Request) (w : World) (rq : OutReq)
  (messages : Value) (rendered : Result string) :
  context_reaches_provider env req rq ->
  page_received w messages ->
  markdownContent host (clock w 0) messages = rendered ->
  match rendered with
  | Throw e =>
      run w (slack_to_github_context host env req)
      = (mkResponse 500 (error (JStr (messageOf host e))), [rq])
  | Ok document =>
      configured (GITHUB_TOKEN env) = None
      \/ configured (GITHUB_OWNER env) = None
      \/ configured (GITHUB_REPO env) = None ->
      run w (slack_to_github_context host env req)
      = (mkResponse 500 (error (JStr "GitHub credentials not configured")), [rq])
  end.
Proof.
  intros (Hchannel & Hfile & slackToken & Htoken & Hrq)
         (slackResponse & slackData & flag & Hout & Hjson & Hok & Hflag & Hmessages)
         Hdoc.
  pose proof (truthy_getOpt_present _ _ Hchannel) as Hbody.
  assert (Hdata : nullish slackData = false)
    by (destruct slackData; try discriminate Hok; reflexivity).
  assert (Hrun : forall response,
             (match rendered with
              | Ok _ =>
                  match configured (GITHUB_TOKEN env), configured (GITHUB_OWNER env),
                        configured (GITHUB_REPO env) with
                  | Some _, Some _, Some _ => False
                  | _, _, _ =>
                      response
                      = mkResponse 500 (error (JStr "GitHub credentials not configured"))
                  end
              | Throw e => response = mkResponse 500 (error (JStr (messageOf host e)))
              end) ->
             run w (slack_to_github_context host env req) = (response, [rq])).
  { intros response Hresponse.
    unfold slack_to_github_context. rewrite !(get_present _ _ Hbody), Htoken.
    revert Hchannel Hfile Hrq. fields req. intros Hchannel Hfile Hrq.
    handler. rewrite Hchannel, Hfile. simpl. rewrite Hrq. simpl.
    rewrite Hout. simpl. rewrite Hjson. simpl. rewrite Hok. simpl.
    rewrite Hflag. simpl. rewrite (get_present _ _ Hdata). simpl.
    rewrite Hmessages, Hdoc.
    destruct rendered as [document|e]; simpl.
    - destruct (configured (GITHUB_TOKEN env)), (configured (GITHUB_OWNER env)),
        (configured (GITHUB_REPO env)); simpl; try contradiction; now subst.
    - now subst. }
  destruct rendered as [document|e].
  - intros Hmissing. apply Hrun.
    destruct Hmissing as [H|[H|H]]; rewrite H;
      repeat match goal with
             | |- context [match configured ?v with _ => _ end] =>
                 destruct (configured v)
             end; reflexivity.
  - apply Hrun. reflexivity.
Qed.

(** X15: when the provider's page cannot be rendered, slack_to_github_context
    answers 500 with the error's message, and the call to the provider is
    the only one made: nothing is read from or written to the store. *)
Theorem unrendered_page_is_not_written
  (host : Host) (env : Env) (req : Request) (w : World) (rq : OutReq)
  (messages : Value) (e : Exn) :
  context_reaches_provider env req rq ->
  page_received w messages ->
  markdownContent host (clock w 0) messages = Throw e ->
  run w (slack_to_github_context host env req)
  = (mkResponse 500 (error (JStr (messageOf host e))), [rq]).
Proof.
  intros Hreach Hpage Hdoc.
  exact (context_page_run host env req w rq messages (Throw e) Hreach Hpage Hdoc).
Qed.

Lemma unrendered_page_is_not_written_witness :
  run (Sample.world [Responded (mkFetchResponse 200
                       (Ok (JObj [("ok", JBool true); ("messages", JArr [JNull])])));
                     Sample.found; Sample.created])
      (slack_to_github_context Sample.host Sample.env Sample.context_request)
  = (mkResponse 500 (error (JStr "TypeError")), [Sample.history_call]).
Proof.
  refine (unrendered_page_is_not_written Sample.host Sample.env Sample.context_request
            (Sample.world [Responded (mkFetchResponse 200
                             (Ok (JObj [("ok", JBool true); ("messages", JArr [JNull])])));
                           Sample.found; Sample.created])
            Sample.history_call (JArr [JNull]) (NullishRead "ts")
            sample_context_reaches_provider _ eq_refl).
  eexists _, _, _. repeat split.
Defined.

Lemma mapR_Throw {A B} (f : A -> Result B) (l : list A) (x : A) (e : Exn) :
  In x l -> f x = Throw e -> exists e', mapR f l = Throw e'.
Proof.
  intros Hin Hx. induction l as [|y l IH]; simpl in *; [contradiction|].
  destruct Hin as [->|Hin].
  - rewrite Hx. eexists. reflexivity.
  - destruct (f y) as [b|e1]; simpl; [| eexists; reflexivity].
    destruct (IH Hin) as (e' & ->). eexists. reflexivity.
Qed.

(** X16: a page is rendered only if its messages are an array without null
    entries: any other value of messages, and any array with a null entry,
    makes the rendering throw. *)
Theorem unrenderable_pages (host : Host) (generated : string) :
  (forall messages,
      (forall items, messages <> JArr items) ->
      exists e, markdownContent host generated messages = Throw e)
  /\ (forall items,
         In JNull items ->
         exists e, markdownContent host generated (JArr items) = Throw e).
Proof.
  split.
  - intros messages Hshape. unfold markdownContent.
    destruct messages as [| |b|n|s|items|props]; simpl;
      try (eexists; reflexivity).
    + now elim (Hshape items).
    + destruct (toStr (lookup "length" props)); simpl; eexists; reflexivity.
  - intros items Hin. unfold markdownContent. simpl.
    destruct (mapR_Throw (render_message host) (rev items) JNull (NullishRead "ts"))
      as (e & ->).
    + apply in_rev. now rewrite rev_involutive.
    + reflexivity.
    + eexists. reflexivity.
Qed.

Lemma unrenderable_pages_witness :
  exists e, markdownContent Sample.host "G" (JArr [Sample.message "1" "U" "hi"; JNull])
            = Throw e.
Proof.
  apply (proj2 (unrenderable_pages Sample.host "G")). right. left. reflexivity.
Defined.

(** X17: the store's configuration is looked at only after the provider has
    answered: with GITHUB_TOKEN, GITHUB_OWNER or GITHUB_REPO unset (or
    empty), slack_to_github_context still calls the provider, then answers
    500 "GitHub credentials not configured" without calling the store. *)
Theorem store_configuration_checked_after_page
  (host : Host) (env : Env) (req : Request) (w : World) (rq : OutReq)
  (messages : Value) (document : string) :
  context_reaches_provider env req rq ->
  page_received w messages ->
  markdownContent host (clock w 0) messages = Ok document ->
  configured (GITHUB_TOKEN env) = None
  \/ configured (GITHUB_OWNER env) = None
  \/ configured (GITHUB_REPO env) = None ->
  run w (slack_to_github_context host env req)
  = (mkResponse 500 (error (JStr "GitHub credentials not configured")), [rq]).
Proof.
  intros Hreach Hpage Hdoc.
  exact (context_page_run host env req w rq messages (Ok document) Hreach Hpage Hdoc).
Qed.

Lemma store_configuration_checked_after_page_witness :
  run (Sample.world [Sample.history; Sample.found; Sample.created])
      (slack_to_github_context Sample.host
         (mkEnv (Some "s3cret") (Some "xoxb-1") (Some "ghp-1") None (Some "notes"))
         Sample.context_request)
  = (mkResponse 500 (error (JStr "GitHub credentials not configured")),
     [Sample.history_call]).
Proof.
  refine (store_configuration_checked_after_page Sample.host
            (mkEnv (Some "s3cret") (Some "xoxb-1") (Some "ghp-1") None (Some "notes"))
            Sample.context_request
            (Sample.world [Sample.history; Sample.found; Sample.created])
            Sample.history_call (JArr Sample.three_messages) Sample.document
            _ _ eq_refl _).
  - repeat split. exists "xoxb-1". split; reflexivity.
  - eexists _, _, _. repeat split.
  - right. left. reflexivity.
Defined.

(** X18: once the document is written, slack_to_github_context answers 200
    with success:true, the number of messages of the page as messages_saved,
    the file's html_url and the commit's sha. *)
Theorem written_document_is_reported
  (host : Host) (env : Env) (req : Request) (w : World)
  (rq : OutReq) (messages : list Value)
  (document githubToken githubOwner githubRepo p : string)
  (githubResponse : FetchResponse) (githubData : Value) :
  context_reaches_store host env req w rq messages document
                        githubToken githubOwner githubRepo p ->
  outcome w 2 = Responded githubResponse ->
  ok githubResponse = true ->
  json githubResponse = Ok githubData ->
  nullish githubData = false ->
  fst (run w (slack_to_github_context host env req))
  = mkResponse 200
      (JObj [("success", JBool true);
             ("messages_saved", ofNat (List.length messages));
             ("github_url", getOpt (getOpt githubData "content") "html_url");
             ("commit_sha", getOpt (getOpt githubData "commit") "sha")]).
Proof.
  intros Hreach Hout Hok Hjson Hdata.
  rewrite (context_run _ _ _ _ _ _ _ _ _ _ _ Hreach). simpl.
  rewrite Hout. simpl. unfold context_reply. rewrite Hjson. simpl.
  rewrite Hok. simpl. rewrite !(get_present _ _ Hdata). reflexivity.
Qed.

Lemma written_document_is_reported_witness :
  fst (run (Sample.world [Sample.history; Sample.not_found; Sample.created])
           (slack_to_github_context Sample.host Sample.env Sample.context_request))
  = mkResponse 200
      (JObj [("success", JBool true);
             ("messages_saved", JNum "3");
             ("github_url", JStr "https://github.com/octo/notes/blob/main/ctx.md");
             ("commit_sha", JStr "c0ffee")]).
Proof.
  exact (written_document_is_reported Sample.host Sample.env Sample.context_request
           (Sample.world [Sample.history; Sample.not_found; Sample.created])
           Sample.history_call Sample.three_messages Sample.document
           "ghp-1" "octo" "notes" "ctx.md" _ _
           (sample_context_reaches_store Sample.not_found Sample.created)
           eq_refl eq_refl eq_refl eq_refl).
Defined.

(** X19: when the write is rejected before the store answers, or the store's
    answer is not JSON, slack_to_github_context answers 500 with the error's
    message alone: the number of retrieved messages is not reported. *)
Theorem unanswered_write_loses_count
  (host : Host) (env : Env) (req : Request) (w : World)
  (rq : OutReq) (messages : list Value)
  (document githubToken githubOwner githubRepo p : string) :
  context_reaches_store host env req w rq messages document
                        githubToken githubOwner githubRepo p ->
  (forall message,
      outcome w 2 = Rejected message ->
      fst (run w (slack_to_github_context host env req))
      = mkResponse 500 (JObj [("error", JStr message)]))
  /\ (forall githubResponse e,
         outcome w 2 = Responded githubResponse ->
         json githubResponse = Throw e ->
         fst (run w (slack_to_github_context host env req))
         = mkResponse 500 (JObj [("error", JStr (messageOf host e))])).
Proof.
  intros Hreach. rewrite (context_run _ _ _ _ _ _ _ _ _ _ _ Hreach). simpl.
  split.
  - intros message Hout. rewrite Hout. reflexivity.
  - intros githubResponse e Hout Hjson. rewrite Hout. simpl.
    unfold context_reply. rewrite Hjson. reflexivity.
Qed.

Lemma unanswered_write_loses_count_witness :
  fst (run (Sample.world [Sample.history; Sample.not_found])
           (slack_to_github_context Sample.host Sample.env Sample.context_request))
  = mkResponse 500 (JObj [("error", JStr "fetch failed")]).
Proof.
  exact (proj1 (unanswered_write_loses_count Sample.host Sample.env Sample.context_request
                  (Sample.world [Sample.history; Sample.not_found])
                  Sample.history_call Sample.three_messages Sample.document
                  "ghp-1" "octo" "notes" "ctx.md"
                  (sample_context_reaches_store Sample.not_found (Rejected "fetch failed")))
               "fetch failed" eq_refl).
Defined.

(** X20: the commit message of a write is the one the request gives; when
    it gives none, save_to_github writes "Update from Slack context", and
    slack_to_github_context writes "Update Slack context - " followed by the
    time of a second reading of the clock. *)
Theorem commit_message_defaults
  (host : Host) (env : Env) (w : World)
  (githubToken githubOwner githubRepo : string) :
  (forall req p b content64,
      save_reaches_store host env req githubToken githubOwner githubRepo p b content64 ->
      exists write sent,
        nth_error (snd (run w (save_to_github host env req))) 1 = Some write
        /\ rq_body write = Some (JObj sent)
        /\ getOpt (JObj sent) "message"
           = (if truthy (getOpt (body req) "message")
              then getOpt (body req) "message"
              else JStr "Update from Slack context"))
  /\ (forall req rq messages document p,
         context_reaches_store host env req w rq messages document
                               githubToken githubOwner githubRepo p ->
         exists write sent,
           nth_error (snd (run w (slack_to_github_context host env req))) 2 = Some write
           /\ rq_body write = Some (JObj sent)
           /\ getOpt (JObj sent) "message"
              = (if truthy (getOpt (body req) "commit_message")
                 then getOpt (body req) "commit_message"
                 else JStr ("Update Slack context - " ++ clock w 1))).
Proof.
  split.
  - intros req p b content64 Hreach.
    rewrite (save_run _ _ _ _ _ _ _ _ _ _ Hreach). simpl.
    unfold with_sha. eexists _, _. repeat split.
  - intros req rq messages document p Hreach.
    rewrite (context_run _ _ _ _ _ _ _ _ _ _ _ Hreach). simpl.
    unfold with_sha. eexists _, _. repeat split.
Qed.

Lemma commit_message_defaults_witness :
  exists write sent,
    nth_error (snd (run (Sample.world [Sample.history; Sample.not_found; Sample.created])
                        (slack_to_github_context Sample.host Sample.env
                                                 Sample.context_request))) 2
    = Some write
    /\ rq_body write = Some (JObj sent)
    /\ getOpt (JObj sent) "message"
       = JStr "Update Slack context - 2026-01-02T00:00:00.000Z".
Proof.
  exact (proj2 (commit_message_defaults Sample.host Sample.env
                  (Sample.world [Sample.history; Sample.not_found; Sample.created])
                  "ghp-1" "octo" "notes")
               Sample.context_request Sample.history_call Sample.three_messages
               Sample.document "ctx.md"
               (sample_context_reaches_store Sample.not_found Sample.created)).
Defined.

